(** * EnRoute-RouteCalc: route data provider and corridor core

    A shallow embedding of [route_data.py] (anchor tables, polyline
    densification, delivery-pair lookup) and of the corridor selection
    core that [examples.py] receives as two injected functions.

    Python's [float] is IEEE binary64: coordinates are Rocq's primitive
    floats, and a decimal literal denotes the nearest binary64 value in
    both languages.  Exceptions are a sum type; a Python [dict] is an
    association list in insertion order, since the code iterates it. *)

From Stdlib Require Import ZArith List String Ascii Bool Floats Lia.
From Stdlib Require Import DecimalString.
From Stdlib Require Import QArith Qabs Permutation Sorted.
Import ListNotations.

Set Warnings "-inexact-float".

Close Scope Q_scope.

(** ** Exceptions and results *)

Inductive exception : Type :=
| IndexError
| KeyError (key : string)
| ZeroDivisionError
| ValueError (msg : string)
| DegenerateRouteError
| InsufficientPairsError
| InvalidInputError.

Inductive result (A : Type) : Type :=
| Ok (a : A)
| Raise (e : exception).

Arguments Ok {A} a.
Arguments Raise {A} e.

Definition bind {A B : Type} (r : result A) (k : A -> result B) : result B :=
  match r with
  | Ok a => k a
  | Raise e => Raise e
  end.

Notation "x <- r ;; k" := (bind r (fun x => k))
  (at level 61, r at next level, right associativity).

(** ** Python built-ins used by [route_data.py] *)

(** [l[i]] for a non-negative index. *)
Definition getitem {A : Type} (l : list A) (i : nat) : result A :=
  match nth_error l i with
  | Some x => Ok x
  | None => Raise IndexError
  end.

(** [l.append(x)], as the new contents of the list. *)
Definition list_append {A : Type} (l : list A) (x : A) : list A := l ++ [x].

(** [range(lo, hi)]. *)
Definition range (lo hi : Z) : list Z :=
  map (fun n => (lo + Z.of_nat n)%Z) (seq 0 (Z.to_nat (hi - lo))).

(** The binary64 value nearest to the exact quotient of two ints
    (ties to even), computed on the ints themselves. *)
Definition int_as_spec_float (z : Z) : spec_float :=
  match z with
  | Z0 => S754_zero false
  | Zpos p => S754_finite false p 0
  | Zneg p => S754_finite true p 0
  end.

Definition rounded_quotient (a b : Z) : float :=
  SF2Prim (SFdiv prec emax (int_as_spec_float a) (int_as_spec_float b)).

(** [a / b] on two ints: the correctly rounded quotient.  (A quotient
    beyond the range of a float raises [OverflowError] in Python; the
    quotients of this module are below 1.) *)
Definition truediv (a b : Z) : result float :=
  if (b =? 0)%Z then Raise ZeroDivisionError
  else Ok (rounded_quotient a b).

(** ** Coordinates *)

Definition LatLon : Type := (float * float)%type.

(** ** Densification helper *)

(** The body of the inner loop: the point at parameter
    [k / (points_per_segment + 1)] between [(lat1, lon1)] and
    [(lat2, lon2)]. *)
Definition interpolate (p1 p2 : LatLon) (points_per_segment k : Z)
  : result LatLon :=
  let '(lat1, lon1) := p1 in
  let '(lat2, lon2) := p2 in
  t <- truediv k (points_per_segment + 1) ;;
  let lat := (lat1 + t * (lat2 - lat1))%float in
  let lon := (lon1 + t * (lon2 - lon1))%float in
  Ok (lat, lon).

(** One iteration of the outer loop, on the list built so far. *)
Definition densify_segment (polyline : list LatLon) (points_per_segment : Z)
    (dense : list LatLon) (i : nat) : result (list LatLon) :=
  p1 <- getitem polyline i ;;
  p2 <- getitem polyline (i + 1) ;;
  let dense := if (i =? 0)%nat then list_append dense p1 else dense in
  dense <- fold_left
             (fun acc k =>
                d <- acc ;;
                p <- interpolate p1 p2 points_per_segment k ;;
                Ok (list_append d p))
             (range 1 (points_per_segment + 1)) (Ok dense) ;;
  let dense :=
    if (i =? List.length polyline - 2)%nat then list_append dense p2
    else dense in
  Ok dense.

Definition densify_polyline (polyline : list LatLon) (points_per_segment : Z)
  : result (list LatLon) :=
  if (List.length polyline <? 2)%nat || (points_per_segment <=? 0)%Z
  then Ok polyline
  else fold_left
         (fun acc i =>
            dense <- acc ;;
            densify_segment polyline points_per_segment dense i)
         (seq 0 (List.length polyline - 1)) (Ok []).

(** The interpolation formula on its own, as the description of the
    densification writes it: [p + (j / (k + 1)) * (q - p)]
    componentwise. *)
Definition lerp (p q : LatLon) (k j : Z) : LatLon :=
  let t := rounded_quotient j (k + 1) in
  ((fst p + t * (fst q - fst p))%float, (snd p + t * (snd q - snd p))%float).


(** ** Highway anchor routes (sparse control points) *)

Open Scope float_scope.

Definition sf_to_sj_us101_anchors : list LatLon :=
  [ (37.7749, -122.4194);
    (37.7577, -122.3953);
    (37.7300, -122.3920);
    (37.7060, -122.4050);
    (37.6160, -122.3920);
    (37.5900, -122.3460);
    (37.5500, -122.3040);
    (37.5100, -122.2700);
    (37.4852, -122.2364);
    (37.4419, -122.1430);
    (37.4040, -122.0790);
    (37.3688, -122.0363);
    (37.3541, -121.9552);
    (37.3382, -121.8863) ].

Definition sf_to_sj_i280_anchors : list LatLon :=
  [ (37.7749, -122.4194);
    (37.7440, -122.4310);
    (37.7083, -122.4500);
    (37.6700, -122.4600);
    (37.6300, -122.4400);
    (37.5900, -122.4200);
    (37.5400, -122.3500);
    (37.4600, -122.2500);
    (37.4000, -122.2200);
    (37.3500, -122.0900);
    (37.3200, -122.0500);
    (37.3050, -121.9200);
    (37.3382, -121.8863) ].

Definition sf_to_sac_i80_anchors : list LatLon :=
  [ (37.7950, -122.3930);
    (37.8200, -122.3700);
    (37.8100, -122.3000);
    (37.8300, -122.2900);
    (37.8700, -122.3000);
    (37.9200, -122.3300);
    (38.0200, -122.2600);
    (38.1100, -122.2400);
    (38.2000, -122.1200);
    (38.2700, -122.0300);
    (38.3600, -121.9900);
    (38.4700, -121.7800);
    (38.5500, -121.7400);
    (38.5800, -121.5300);
    (38.5816, -121.4944) ].

Definition oakland_to_sj_i880_anchors : list LatLon :=
  [ (37.8044, -122.2712);
    (37.7900, -122.2600);
    (37.7700, -122.2400);
    (37.7300, -122.2100);
    (37.7000, -122.1900);
    (37.6700, -122.1500);
    (37.6300, -122.1200);
    (37.6000, -122.0700);
    (37.5500, -122.0400);
    (37.5200, -122.0000);
    (37.4700, -121.9600);
    (37.4400, -121.9200);
    (37.4000, -121.9200);
    (37.3500, -121.9100);
    (37.3382, -121.8863) ].

Definition us101_delivery_routes : list (LatLon * LatLon) :=
  [ ((37.7749, -122.4194), (37.6160, -122.3920));
    ((37.7577, -122.3953), (37.5500, -122.3040));
    ((37.7300, -122.3920), (37.4852, -122.2364));
    ((37.6160, -122.3920), (37.4419, -122.1430));
    ((37.5900, -122.3460), (37.4040, -122.0790));
    ((37.5500, -122.3040), (37.3688, -122.0363));
    ((37.5100, -122.2700), (37.3541, -121.9552));
    ((37.4852, -122.2364), (37.3382, -121.8863));
    ((37.5900, -122.3460), (37.5500, -122.3040));
    ((37.5500, -122.3040), (37.5100, -122.2700));
    ((37.5100, -122.2700), (37.4852, -122.2364));
    ((37.4419, -122.1430), (37.4040, -122.0790));
    ((37.4040, -122.0790), (37.3688, -122.0363));
    ((37.3688, -122.0363), (37.3541, -121.9552));
    ((37.3541, -121.9552), (37.3382, -121.8863));
    ((37.7749, -122.4194), (37.3382, -121.8863));
    ((37.6160, -122.3920), (37.3382, -121.8863)) ].

Definition i280_delivery_routes : list (LatLon * LatLon) :=
  [ ((37.7749, -122.4194), (37.7083, -122.4500));
    ((37.7440, -122.4310), (37.6300, -122.4400));
    ((37.7083, -122.4500), (37.5900, -122.4200));
    ((37.5900, -122.4200), (37.4600, -122.2500));
    ((37.5400, -122.3500), (37.4000, -122.2200));
    ((37.4600, -122.2500), (37.3500, -122.0900));
    ((37.4000, -122.2200), (37.3200, -122.0500));
    ((37.3500, -122.0900), (37.3382, -121.8863));
    ((37.7749, -122.4194), (37.3382, -121.8863));
    ((37.5900, -122.4200), (37.3382, -121.8863)) ].

Definition i80_delivery_routes : list (LatLon * LatLon) :=
  [ ((37.7950, -122.3930), (37.8100, -122.3000));
    ((37.7950, -122.3930), (37.8300, -122.2900));
    ((37.8100, -122.3000), (37.8700, -122.3000));
    ((37.8300, -122.2900), (37.9200, -122.3300));
    ((37.8700, -122.3000), (38.0200, -122.2600));
    ((37.9200, -122.3300), (38.1100, -122.2400));
    ((38.0200, -122.2600), (38.2000, -122.1200));
    ((38.1100, -122.2400), (38.2700, -122.0300));
    ((38.2000, -122.1200), (38.3600, -121.9900));
    ((38.2700, -122.0300), (38.4700, -121.7800));
    ((38.3600, -121.9900), (38.5500, -121.7400));
    ((38.4700, -121.7800), (38.5500, -121.7400));
    ((38.5500, -121.7400), (38.5816, -121.4944));
    ((38.5800, -121.5300), (38.5816, -121.4944));
    ((37.7950, -122.3930), (38.5816, -121.4944));
    ((37.8700, -122.3000), (38.5816, -121.4944));
    ((38.1100, -122.2400), (38.5816, -121.4944)) ].

Definition i880_delivery_routes : list (LatLon * LatLon) :=
  [ ((37.8044, -122.2712), (37.7300, -122.2100));
    ((37.7900, -122.2600), (37.7000, -122.1900));
    ((37.7700, -122.2400), (37.6700, -122.1500));
    ((37.7300, -122.2100), (37.6300, -122.1200));
    ((37.7000, -122.1900), (37.6000, -122.0700));
    ((37.6700, -122.1500), (37.5500, -122.0400));
    ((37.6300, -122.1200), (37.5200, -122.0000));
    ((37.6000, -122.0700), (37.4700, -121.9600));
    ((37.5500, -122.0400), (37.4400, -121.9200));
    ((37.5200, -122.0000), (37.4000, -121.9200));
    ((37.4700, -121.9600), (37.3500, -121.9100));
    ((37.4400, -121.9200), (37.3382, -121.8863));
    ((37.8044, -122.2712), (37.3382, -121.8863));
    ((37.7300, -122.2100), (37.3382, -121.8863));
    ((37.6300, -122.1200), (37.3382, -121.8863));
    ((37.5500, -122.0400), (37.3382, -121.8863)) ].

Close Scope float_scope.

(** ** Route dictionaries *)

Definition dict (V : Type) : Type := list (string * V).

Definition values {V : Type} (d : dict V) : list V := map snd d.

Definition keys {V : Type} (d : dict V) : list string := map fst d.

(** [d[key]] and [key in d]; the tables below have distinct keys. *)
Fixpoint lookup {V : Type} (d : dict V) (key : string) : option V :=
  match d with
  | [] => None
  | (k, v) :: rest => if String.eqb key k then Some v else lookup rest key
  end.

(** [s.replace(old, new)] for a non-empty [old]: every occurrence,
    left to right, without overlap. *)
Fixpoint drop_chars (n : nat) (s : string) : string :=
  match n, s with
  | S n', String _ s' => drop_chars n' s'
  | _, _ => s
  end.

Fixpoint replace_fuel (fuel : nat) (old new s : string) : string :=
  match fuel, s with
  | S fuel', String c s' =>
      if String.prefix old s
      then String.append new
             (replace_fuel fuel' old new (drop_chars (String.length old) s))
      else String c (replace_fuel fuel' old new s')
  | _, _ => s
  end.

Definition replace (s old new : string) : string :=
  replace_fuel (String.length s) old new s.

(** A dict comprehension whose values may raise. *)
Fixpoint dict_comprehension {V W : Type} (key : string -> string)
    (value : V -> result W) (d : dict V) : result (dict W) :=
  match d with
  | [] => Ok []
  | (k, v) :: rest =>
      w <- value v ;;
      rest' <- dict_comprehension key value rest ;;
      Ok ((key k, w) :: rest')
  end.

Open Scope string_scope.

Definition anchor_highway_routes : dict (list LatLon) :=
  [ ("sf_to_sj_us101_anchor", sf_to_sj_us101_anchors);
    ("sf_to_sj_i280_anchor", sf_to_sj_i280_anchors);
    ("sf_to_sac_i80_anchor", sf_to_sac_i80_anchors);
    ("oakland_to_sj_i880_anchor", oakland_to_sj_i880_anchors) ].

Definition BASE_POINTS_PER_SEGMENT : Z := 4.

(** The first binding of [base_highway_routes] (the comprehension over
    the anchor dictionary); the module rebinds the name further down. *)
Definition base_highway_routes_comprehension : result (dict (list LatLon)) :=
  dict_comprehension (fun name => replace name "_anchor" "")
    (fun route => densify_polyline route BASE_POINTS_PER_SEGMENT)
    anchor_highway_routes.

Definition HD_POINTS_PER_SEGMENT : Z := 10.

(** The first binding of [hd_highway_routes], densifying the already
    densified base routes; rebound further down as well. *)
Definition hd_highway_routes_comprehension : result (dict (list LatLon)) :=
  base <- base_highway_routes_comprehension ;;
  dict_comprehension (fun name => name ++ "_hd")
    (fun route => densify_polyline route HD_POINTS_PER_SEGMENT)
    base.

(** The final bindings: each route densified from its anchors. *)
Definition base_highway_routes : result (dict (list LatLon)) :=
  us101 <- densify_polyline sf_to_sj_us101_anchors 4 ;;
  i280 <- densify_polyline sf_to_sj_i280_anchors 4 ;;
  i80 <- densify_polyline sf_to_sac_i80_anchors 4 ;;
  i880 <- densify_polyline oakland_to_sj_i880_anchors 4 ;;
  Ok [ ("sf_to_sj_us101", us101);
       ("sf_to_sj_i280", i280);
       ("sf_to_sac_i80", i80);
       ("oakland_to_sj_i880", i880) ].

Definition hd_highway_routes : result (dict (list LatLon)) :=
  us101 <- densify_polyline sf_to_sj_us101_anchors 10 ;;
  i280 <- densify_polyline sf_to_sj_i280_anchors 10 ;;
  i80 <- densify_polyline sf_to_sac_i80_anchors 10 ;;
  i880 <- densify_polyline oakland_to_sj_i880_anchors 10 ;;
  Ok [ ("sf_to_sj_us101_hd", us101);
       ("sf_to_sj_i280_hd", i280);
       ("sf_to_sac_i80_hd", i80);
       ("oakland_to_sj_i880_hd", i880) ].

(** The keys of the final [hd_highway_routes]. *)
Definition keys_of_hd_highway_routes : list string :=
  [ "sf_to_sj_us101_hd"; "sf_to_sj_i280_hd"; "sf_to_sac_i80_hd";
    "oakland_to_sj_i880_hd" ].

(** ** Delivery route pairs (combined) *)

Definition delivery_route_pairs : dict (list (LatLon * LatLon)) :=
  [ ("us101_deliveries", us101_delivery_routes);
    ("i280_deliveries", i280_delivery_routes);
    ("i80_deliveries", i80_delivery_routes);
    ("i880_deliveries", i880_delivery_routes) ].

(** ** Convenience functions *)

(** [all_pairs.extend(pairs)] for every value of the dictionary. *)
Definition get_all_delivery_pairs : list (LatLon * LatLon) :=
  fold_left (fun all_pairs pairs => (all_pairs ++ pairs)%list)
    (values delivery_route_pairs) [].

(** [repr] of a list of plain strings, as the error message prints it. *)
Definition repr_str_list (l : list string) : string :=
  "[" ++ String.concat ", " (map (fun s => "'" ++ s ++ "'") l) ++ "]".

Definition get_delivery_pairs_for_route (route_name : string)
  : result (list (LatLon * LatLon)) :=
  let mapping : dict (list (LatLon * LatLon)) :=
    [ ("sf_to_sj_us101", us101_delivery_routes);
      ("sf_to_sj_i280", i280_delivery_routes);
      ("sf_to_sac_i80", i80_delivery_routes);
      ("oakland_to_sj_i880", i880_delivery_routes) ] in
  match lookup mapping route_name with
  | None =>
      Raise (ValueError ("Unknown route: " ++ route_name ++ ". Choose from "
                         ++ repr_str_list (keys mapping)))
  | Some pairs => Ok pairs
  end.

(** ** The calls of [examples.py]

    Each example looks a route up in [base_highway_routes], loads the
    delivery pairs of a route and asks the injected core for a corridor
    with a minimum pair count, by the percentile method.  The table lists
    the route key and the count of examples 1 and 2 and of the four
    rounds of example 3; example 4 asks for 30 pairs among
    [get_all_delivery_pairs ()]. *)
Definition example_requests : list (string * Z) :=
  [ ("sf_to_sj_us101", 10%Z);
    ("sf_to_sj_i280", 2%Z);
    ("sf_to_sj_us101", 10%Z);
    ("sf_to_sj_i280", 6%Z);
    ("oakland_to_sj_i880", 10%Z);
    ("sf_to_sac_i80", 12%Z) ].

Definition example_4_min_required : Z := 30.

(** What an example hands to the core: the route
    [base_highway_routes[route_key]] and the pairs of
    [get_delivery_pairs_for_route(route_key)]. *)
Definition example_inputs (route_key : string)
  : result (list LatLon * list (LatLon * LatLon)) :=
  routes <- base_highway_routes ;;
  match lookup routes route_key with
  | None => Raise (KeyError route_key)
  | Some route =>
      delivery_pairs <- get_delivery_pairs_for_route route_key ;;
      Ok (route, delivery_pairs)
  end.

Close Scope string_scope.

(** ** The delivery tables as shared objects

    A Python list is an object: [get_delivery_pairs_for_route] returns
    the table it finds ([return mapping[route_name]]), while
    [get_all_delivery_pairs] builds a list of its own.  Here the list
    objects live in a store, by address, and the module's names are
    bound to addresses. *)

Definition address : Type := nat.

Record module_state : Type := {
  objects : list (list (LatLon * LatLon));
  us101_delivery_routes_at : address;
  i280_delivery_routes_at : address;
  i80_delivery_routes_at : address;
  i880_delivery_routes_at : address;
  delivery_route_pairs_at : dict address
}.

Definition with_objects (st : module_state)
    (objs : list (list (LatLon * LatLon))) : module_state :=
  {| objects := objs;
     us101_delivery_routes_at := us101_delivery_routes_at st;
     i280_delivery_routes_at := i280_delivery_routes_at st;
     i80_delivery_routes_at := i80_delivery_routes_at st;
     i880_delivery_routes_at := i880_delivery_routes_at st;
     delivery_route_pairs_at := delivery_route_pairs_at st |}.

(** The contents of the list at an address. *)
Definition contents (st : module_state) (a : address)
  : list (LatLon * LatLon) :=
  nth a (objects st) [].

Fixpoint replace_nth {A : Type} (l : list A) (n : nat) (x : A) : list A :=
  match l, n with
  | [], _ => []
  | _ :: rest, O => x :: rest
  | y :: rest, S n' => y :: replace_nth rest n' x
  end.

Definition set_contents (st : module_state) (a : address)
    (l : list (LatLon * LatLon)) : module_state :=
  with_objects st (replace_nth (objects st) a l).

(** A new list object [[]]. *)
Definition new_list (st : module_state) : module_state * address :=
  (with_objects st (objects st ++ [[]]), List.length (objects st)).

(** [target.extend(source)] and [target.append(x)] on list objects. *)
Definition extend_at (st : module_state) (target source : address)
  : module_state :=
  set_contents st target (contents st target ++ contents st source).

Definition append_at (st : module_state) (target : address)
    (x : LatLon * LatLon) : module_state :=
  set_contents st target (contents st target ++ [x]).

(** The module after import: the four tables, and
    [delivery_route_pairs] holding those same four objects. *)
Definition imported : module_state :=
  {| objects := [ us101_delivery_routes; i280_delivery_routes;
                  i80_delivery_routes; i880_delivery_routes ];
     us101_delivery_routes_at := 0;
     i280_delivery_routes_at := 1;
     i80_delivery_routes_at := 2;
     i880_delivery_routes_at := 3;
     delivery_route_pairs_at :=
       [ ("us101_deliveries", 0); ("i280_deliveries", 1);
         ("i80_deliveries", 2); ("i880_deliveries", 3) ]%string |}.

(** [get_all_delivery_pairs ()] on objects: the new state and the
    address of the list it returns. *)
Definition get_all_delivery_pairs_obj (st : module_state)
  : module_state * address :=
  let '(st0, all_pairs) := new_list st in
  (fold_left (fun st' pairs => extend_at st' all_pairs pairs)
     (values (delivery_route_pairs_at st)) st0,
   all_pairs).

(** [get_delivery_pairs_for_route (route_name)] on objects: the address
    it returns; the store is left as it is. *)
Definition get_delivery_pairs_for_route_obj (st : module_state)
    (route_name : string) : result address :=
  let mapping : dict address :=
    [ ("sf_to_sj_us101", us101_delivery_routes_at st);
      ("sf_to_sj_i280", i280_delivery_routes_at st);
      ("sf_to_sac_i80", i80_delivery_routes_at st);
      ("oakland_to_sj_i880", i880_delivery_routes_at st) ]%string in
  match lookup mapping route_name with
  | None =>
      Raise (ValueError ("Unknown route: " ++ route_name ++ ". Choose from "
                         ++ repr_str_list (keys mapping))%string)
  | Some pairs => Ok pairs
  end.

(** ** Output and drawing

    [print], numpy and folium are outside the repository: a run is the
    list of what the code prints and of the requests folium accepts, in
    order, with the result or the exception it ends in.  Strings are
    byte strings in UTF-8.  Four things are parameters below: [np.mean],
    the format [{x:.1f}] of a float, membership in a [set] of pairs
    (which on NaN coordinates depends on object identity), and what
    folium answers to a request: it accepts it or raises (it refuses, for
    one, a map centred on NaN and a line without points). *)

Inductive event : Type :=
| Print (text : string)
| FoliumMap (location : float * float) (zoom_start : Z)
| FoliumPolygon (locations : list (float * float)) (color : string)
    (fill : bool) (fillColor : string) (fillOpacity : float) (weight : Z)
    (popup tooltip : string)
| FoliumPolyLine (locations : list (float * float)) (color : option string)
    (weight : Z) (opacity : float) (popup tooltip : option string)
| FoliumCircleMarker (location : float * float) (radius : Z)
    (color : string) (fill : bool) (fillOpacity : float) (weight : Z)
| FoliumMarker (location : float * float) (popup : string)
    (icon_color icon : string)
| FoliumElement (html : string)
| Save (file : string).

Definition io (A : Type) : Type := (list event * result A)%type.

Definition io_ret {A : Type} (a : A) : io A := ([], Ok a).

Definition io_bind {A B : Type} (c : io A) (k : A -> io B) : io B :=
  match c with
  | (t, Ok a) => let '(t', r) := k a in (t ++ t', r)
  | (t, Raise e) => (t, Raise e)
  end.

Notation "x <~ c ;; k" := (io_bind c (fun x => k))
  (at level 61, c at next level, right associativity).

Notation "c ;;; k" := (io_bind c (fun _ => k))
  (at level 61, right associativity).

Definition emit (e : event) : io unit := ([e], Ok tt).

Definition lift {A : Type} (r : result A) : io A := ([], r).

(** [for x in l: body]. *)
Fixpoint for_each {A : Type} (l : list A) (body : A -> io unit) : io unit :=
  match l with
  | [] => io_ret tt
  | x :: rest => body x ;;; for_each rest body
  end.

(** A list comprehension whose element expression may raise. *)
Fixpoint comprehension {A B : Type} (f : A -> result B) (l : list A)
  : result (list B) :=
  match l with
  | [] => Ok []
  | x :: rest =>
      y <- f x ;;
      ys <- comprehension f rest ;;
      Ok (y :: ys)
  end.

(** [d[key]]. *)
Definition dict_getitem {V : Type} (d : dict V) (key : string) : result V :=
  match lookup d key with
  | Some v => Ok v
  | None => Raise (KeyError key)
  end.

Definition nl : string := String (ascii_of_nat 10) EmptyString.

Definition dq : string := String (ascii_of_nat 34) EmptyString.

(** [s * n]. *)
Fixpoint string_times (s : string) (n : nat) : string :=
  match n with
  | O => EmptyString
  | S n' => String.append s (string_times s n')
  end.

(** [str] of an int and of a bool. *)
Definition str_of_Z (z : Z) : string := NilZero.string_of_int (Z.to_int z).

Definition str_of_nat (n : nat) : string := str_of_Z (Z.of_nat n).

Definition str_of_bool (b : bool) : string :=
  if b then "True"%string else "False"%string.


Definition files_saved (t : list event) : list string :=
  flat_map (fun e => match e with Save file => [file] | _ => [] end) t.

(** A library that accepts every request. *)
Definition accept_all (e : event) : result unit := Ok tt.

Section Presentation.

Variable np_mean : list float -> float.
Variable format_1f : float -> string.
Variable in_set : list (LatLon * LatLon) -> LatLon * LatLon -> bool.
Variable folium : event -> result unit.

(** A call into folium (a constructor with [add_to], [add_child],
    [save]): the request is recorded when the library accepts it;
    otherwise the call raises what the library raises. *)
Definition request (e : event) : io unit :=
  match folium e with
  | Ok _ => ([e], Ok tt)
  | Raise x => ([], Raise x)
  end.

Local Open Scope string_scope.

(** *** [route_data.print_route_summary] *)

(** The function reads the globals [base_highway_routes] and
    [delivery_route_pairs] when it is called; they are arguments here. *)
Definition print_route_summary_with (routes : dict (list LatLon))
    (tables : dict (list (LatLon * LatLon))) : io unit :=
  emit (Print (string_times "=" 70)) ;;;
  emit (Print "ROUTE DATA SUMMARY") ;;;
  emit (Print (string_times "=" 70)) ;;;
  emit (Print (nl ++ "Base Highway Routes:")) ;;;
  for_each routes
    (fun '(name, route) =>
       emit (Print ("  - " ++ name ++ ": " ++ str_of_nat (List.length route)
                    ++ " points"))) ;;;
  emit (Print (nl ++ "Delivery Route Pairs:")) ;;;
  for_each tables
    (fun '(name, pairs) =>
       emit (Print ("  - " ++ name ++ ": " ++ str_of_nat (List.length pairs)
                    ++ " delivery routes"))) ;;;
  let total_deliveries :=
    fold_left Nat.add (map (fun pairs => List.length pairs) (values tables))
      0%nat in
  emit (Print (nl ++ "Total delivery routes: "
               ++ str_of_nat total_deliveries)) ;;;
  emit (Print (string_times "=" 70)).

Definition print_route_summary : io unit :=
  routes <~ lift base_highway_routes ;;
  print_route_summary_with routes delivery_route_pairs.

(** *** [point_visualization.visualize_route_with_oriented_bbox] *)

(** [100 * a / b] formatted with one decimal. *)
Definition percent (a b : Z) : result string :=
  q <- truediv (100 * a) b ;;
  Ok (format_1f q).

Definition len {A : Type} (l : list A) : Z := Z.of_nat (List.length l).

Definition legend_html (all_pairs filtered_pairs : list (LatLon * LatLon))
    (angle : float) : result string :=
  kept_percent <- percent (len filtered_pairs) (len all_pairs) ;;
  filtered_percent <-
    percent (len all_pairs - len filtered_pairs) (len all_pairs) ;;
  Ok (String.concat ""
      [ nl; "    <div style="; dq; "position: fixed; "; nl;
        "                bottom: 50px; right: 50px; "; nl;
        "                border:2px solid grey; z-index:9999; "; nl;
        "                background-color:white;"; nl;
        "                padding: 10px;"; nl;
        "                font-size: 14px;"; dq; ">"; nl; "    <p style="; dq;
        "margin: 5px;"; dq; "><b>Oriented Bounding Box</b></p>"; nl;
        "    <p style="; dq; "margin: 5px;"; dq; "><span style="; dq;
        "color: darkblue;"; dq; ">▭</span> Oriented Box ("; format_1f angle;
        "° from east)</p>"; nl; "    <p style="; dq; "margin: 5px;"; dq;
        "><span style="; dq; "color: blue;"; dq; ">━━</span> Route</p>"; nl;
        "    <hr style="; dq; "margin: 10px 0;"; dq; ">"; nl;
        "    <p style="; dq; "margin: 5px; font-size: 12px;"; dq;
        "><b>Pairs:</b></p>"; nl; "    <p style="; dq; "margin: 5px;"; dq;
        "><span style="; dq; "color: green;"; dq; ">●</span> Kept: ";
        str_of_nat (List.length filtered_pairs); " ("; kept_percent;
        "%)</p>"; nl; "    <p style="; dq; "margin: 5px;"; dq;
        "><span style="; dq; "color: red;"; dq; ">●</span> Filtered: ";
        str_of_Z (len all_pairs - len filtered_pairs); " (";
        filtered_percent; "%)</p>"; nl; "    </div>"; nl; "    " ]).

(** The body of the loop over [all_pairs]. *)
Definition draw_pair (filtered_pairs : list (LatLon * LatLon))
    (pair : LatLon * LatLon) : io unit :=
  let '(origin, dest) := pair in
  let is_kept := in_set filtered_pairs pair in
  let color := if is_kept then "green" else "red" in
  let opacity := if is_kept then 0.7%float else 0.3%float in
  let weight := if is_kept then 2%Z else 1%Z in
  request (FoliumPolyLine
             [ (fst origin, snd origin); (fst dest, snd dest) ]%list
             (Some color) weight opacity
             (Some (if is_kept then "✓ KEPT" else "✗ FILTERED")) None) ;;;
  request (FoliumCircleMarker (fst origin, snd origin)
             (if is_kept then 4%Z else 3%Z) color true opacity 1) ;;;
  request (FoliumCircleMarker (fst dest, snd dest)
             (if is_kept then 5%Z else 3%Z) color true opacity
             (if is_kept then 2%Z else 1%Z)).

Definition visualize_route_with_oriented_bbox (route : list LatLon)
    (all_pairs filtered_pairs : list (LatLon * LatLon))
    (bbox_corners : list LatLon) (angle : float) (output_file : string)
  : io unit :=
  let center_lat := np_mean (map fst route) in
  let center_lon := np_mean (map snd route) in
  request (FoliumMap (center_lat, center_lon) 10) ;;;
  oriented_bbox_coords <~
    lift (comprehension
            (fun i => corner <- getitem bbox_corners i ;;
                      Ok (fst corner, snd corner))
            (seq 0 4)) ;;
  first <~ lift (getitem oriented_bbox_coords 0) ;;
  let oriented_bbox_coords := list_append oriented_bbox_coords first in
  request (FoliumPolygon oriented_bbox_coords "darkblue" true "darkblue"
             0.05%float 3
             ("Oriented Bounding Box (angle: " ++ format_1f angle ++ "°)")
             ("Oriented Box (" ++ format_1f angle ++ "° from east)")) ;;;
  request (FoliumPolyLine (map (fun p => (fst p, snd p)) route)
             (Some "blue") 4 0.8%float (Some "Route") None) ;;;
  for_each all_pairs (draw_pair filtered_pairs) ;;;
  html <~ lift (legend_html all_pairs filtered_pairs angle) ;;
  request (FoliumElement html) ;;;
  request (Save output_file) ;;;
  emit (Print (nl ++ "Visualization saved to " ++ output_file)) ;;;
  emit (Print ("  - Route with " ++ str_of_nat (List.length route)
               ++ " points")) ;;;
  emit (Print ("  - Oriented box angle: " ++ format_1f angle
               ++ "° from east")) ;;;
  emit (Print ("  - Total pairs: " ++ str_of_nat (List.length all_pairs))) ;;;
  kept_percent <~ lift (percent (len filtered_pairs) (len all_pairs)) ;;
  emit (Print ("  - Pairs kept: " ++ str_of_nat (List.length filtered_pairs)
               ++ " (" ++ kept_percent ++ "%)")) ;;;
  filtered_percent <~
    lift (percent (len all_pairs - len filtered_pairs) (len all_pairs)) ;;
  emit (Print ("  - Pairs filtered: "
               ++ str_of_Z (len all_pairs - len filtered_pairs)
               ++ " (" ++ filtered_percent ++ "%)")).

(** *** [point_visualization.make_folium_map] *)

(** The built-in [sum] on floats (its rounding depends on the
    interpreter's version). *)
Variable py_sum : list float -> float.





(** *** [examples.py] *)

(** The two functions every example receives; they return or raise. *)
Variable compute_oriented_bbox_with_min_pairs :
  list LatLon -> list (LatLon * LatLon) -> Z -> string ->
  result (list LatLon * float).
Variable filter_pairs_in_oriented_bbox :
  list (LatLon * LatLon) -> list LatLon -> bool ->
  result (list (LatLon * LatLon)).

Definition example_1_basic_workflow
  : io (list LatLon * list (LatLon * LatLon) * list (LatLon * LatLon)
        * list LatLon * float) :=
  emit (Print (string_times "=" 70)) ;;;
  emit (Print "EXAMPLE 1: US-101 Delivery Routes") ;;;
  emit (Print (string_times "=" 70)) ;;;
  routes <~ lift base_highway_routes ;;
  route <~ lift (dict_getitem routes "sf_to_sj_us101") ;;
  delivery_pairs <~ lift (get_delivery_pairs_for_route "sf_to_sj_us101") ;;
  emit (Print (nl ++ "1. Route: US-101 SF to SJ ("
               ++ str_of_nat (List.length route) ++ " points)")) ;;;
  emit (Print ("2. Loaded " ++ str_of_nat (List.length delivery_pairs)
               ++ " city-to-city delivery routes")) ;;;
  let min_pairs_required := 10%Z in
  emit (Print ("3. Computing oriented box guaranteeing "
               ++ str_of_Z min_pairs_required ++ " delivery routes...")) ;;;
  box <~ lift (compute_oriented_bbox_with_min_pairs route delivery_pairs
                 min_pairs_required "percentile") ;;
  let '(bbox_corners, angle) := box in
  filtered_pairs <~
    lift (filter_pairs_in_oriented_bbox delivery_pairs bbox_corners true) ;;
  emit (Print "4. Results:") ;;;
  emit (Print ("   - Box angle: " ++ format_1f angle ++ "° from east")) ;;;
  emit (Print ("   - Delivery routes inside: "
               ++ str_of_nat (List.length filtered_pairs) ++ "/"
               ++ str_of_nat (List.length delivery_pairs))) ;;;
  emit (Print ("   - Guarantee met: "
               ++ str_of_bool (min_pairs_required <=? len filtered_pairs)%Z)) ;;;
  visualize_route_with_oriented_bbox route delivery_pairs filtered_pairs
    bbox_corners angle "example1_us101_deliveries.html" ;;;
  emit (Print (nl ++ string_times "=" 70)) ;;;
  io_ret (route, delivery_pairs, filtered_pairs, bbox_corners, angle).

Definition example_2_i280_deliveries : io unit :=
  emit (Print (string_times "=" 70)) ;;;
  emit (Print "EXAMPLE 2: I-280 Delivery Routes (Peninsula)") ;;;
  emit (Print (string_times "=" 70)) ;;;
  routes <~ lift base_highway_routes ;;
  route <~ lift (dict_getitem routes "sf_to_sj_i280") ;;
  delivery_pairs <~ lift (get_delivery_pairs_for_route "sf_to_sj_i280") ;;
  emit (Print (nl ++ "Route: I-280 SF to SJ ("
               ++ str_of_nat (List.length route) ++ " points)")) ;;;
  emit (Print ("Loaded: " ++ str_of_nat (List.length delivery_pairs)
               ++ " delivery routes")) ;;;
  let min_required := 2%Z in
  emit (Print (nl ++ "Computing oriented box guaranteeing "
               ++ str_of_Z min_required ++ " delivery routes...")) ;;;
  box <~ lift (compute_oriented_bbox_with_min_pairs route delivery_pairs
                 min_required "percentile") ;;
  let '(bbox, angle) := box in
  filtered <~
    lift (filter_pairs_in_oriented_bbox delivery_pairs bbox true) ;;
  emit (Print (nl ++ "Results:")) ;;;
  emit (Print ("  Box angle: " ++ format_1f angle ++ "° from east")) ;;;
  emit (Print ("  Delivery routes inside: "
               ++ str_of_nat (List.length filtered) ++ "/"
               ++ str_of_nat (List.length delivery_pairs))) ;;;
  visualize_route_with_oriented_bbox route delivery_pairs filtered bbox
    angle "example2_i280_deliveries.html" ;;;
  emit (Print (nl ++ string_times "=" 70)).

Definition routes_to_test : list (string * string * Z) :=
  [ ("sf_to_sj_us101", "US-101 (North-South)", 10%Z);
    ("sf_to_sj_i280", "I-280 (Peninsula)", 6%Z);
    ("oakland_to_sj_i880", "I-880 (East Bay)", 10%Z);
    ("sf_to_sac_i80", "I-80 (East-West to Sac)", 12%Z) ]%list.

(** The body of the loop of example 3. *)
Definition example_3_round (test : string * string * Z) : io unit :=
  let '(route_key, route_name, min_pairs) := test in
  routes <~ lift base_highway_routes ;;
  route <~ lift (dict_getitem routes route_key) ;;
  delivery_pairs <~ lift (get_delivery_pairs_for_route route_key) ;;
  box <~ lift (compute_oriented_bbox_with_min_pairs route delivery_pairs
                 min_pairs "percentile") ;;
  let '(bbox_corners, angle) := box in
  filtered <~
    lift (filter_pairs_in_oriented_bbox delivery_pairs bbox_corners true) ;;
  emit (Print (nl ++ route_name ++ ":")) ;;;
  emit (Print ("  Route points: " ++ str_of_nat (List.length route))) ;;;
  emit (Print ("  Delivery routes: "
               ++ str_of_nat (List.length delivery_pairs))) ;;;
  emit (Print ("  Box angle: " ++ format_1f angle ++ "° from east")) ;;;
  emit (Print ("  Inside box: " ++ str_of_nat (List.length filtered)
               ++ " (min: " ++ str_of_Z min_pairs ++ ")")) ;;;
  visualize_route_with_oriented_bbox route delivery_pairs filtered
    bbox_corners angle ("example3_" ++ route_key ++ ".html").

Definition example_3_all_routes : io unit :=
  emit (Print (string_times "=" 70)) ;;;
  emit (Print "EXAMPLE 3: All Routes with Delivery Pairs") ;;;
  emit (Print (string_times "=" 70)) ;;;
  for_each routes_to_test example_3_round ;;;
  emit (Print (nl ++ string_times "=" 70)).

Definition example_4_combined_deliveries : io unit :=
  emit (Print (string_times "=" 70)) ;;;
  emit (Print "EXAMPLE 4: All Bay Area Deliveries Combined") ;;;
  emit (Print (string_times "=" 70)) ;;;
  let all_deliveries := get_all_delivery_pairs in
  emit (Print (nl ++ "Total delivery routes across Bay Area: "
               ++ str_of_nat (List.length all_deliveries))) ;;;
  for_each
    [ "sf_to_sj_us101"; "sf_to_sj_i280"; "oakland_to_sj_i880";
      "sf_to_sac_i80" ]%list
    (fun route_name =>
       pairs <~ lift (get_delivery_pairs_for_route route_name) ;;
       emit (Print ("  - " ++ route_name ++ ": "
                    ++ str_of_nat (List.length pairs)
                    ++ " delivery routes"))) ;;;
  routes <~ lift base_highway_routes ;;
  route <~ lift (dict_getitem routes "sf_to_sj_us101") ;;
  let min_required := 30%Z in
  emit (Print (nl ++ "Filtering all Bay Area deliveries along US-101 "
               ++ "corridor...")) ;;;
  emit (Print ("Guaranteeing minimum: " ++ str_of_Z min_required
               ++ " delivery routes")) ;;;
  box <~ lift (compute_oriented_bbox_with_min_pairs route all_deliveries
                 min_required "percentile") ;;
  let '(bbox, angle) := box in
  filtered <~
    lift (filter_pairs_in_oriented_bbox all_deliveries bbox true) ;;
  emit (Print (nl ++ "Results:")) ;;;
  emit (Print ("  Box angle: " ++ format_1f angle ++ "° from east")) ;;;
  emit (Print ("  Delivery routes in US-101 corridor: "
               ++ str_of_nat (List.length filtered) ++ "/"
               ++ str_of_nat (List.length all_deliveries))) ;;;
  visualize_route_with_oriented_bbox route all_deliveries filtered bbox
    angle "example4_all_bay_area_deliveries.html" ;;;
  emit (Print (nl ++ string_times "=" 70)).

Definition run_all_examples : io unit :=
  emit (Print nl) ;;;
  emit (Print (string_times "█" 70)) ;;;
  emit (Print (string_times " " 20 ++ "RUNNING ALL EXAMPLES")) ;;;
  emit (Print (string_times "█" 70)) ;;;
  emit (Print nl) ;;;
  example_1_basic_workflow ;;;
  example_2_i280_deliveries ;;;
  example_3_all_routes ;;;
  example_4_combined_deliveries ;;;
  emit (Print nl) ;;;
  emit (Print (string_times "█" 70)) ;;;
  emit (Print (string_times " " 25 ++ "ALL EXAMPLES COMPLETE")) ;;;
  emit (Print (string_times "█" 70)) ;;;
  emit (Print nl).

End Presentation.

(** ** The corridor core

    [examples.py] receives the core as two functions,
    [compute_oriented_bbox_with_min_pairs] and
    [filter_pairs_in_oriented_bbox], whose code is not part of the
    sources.  The definitions of this part follow the specification's
    design (sections 3, 4 and 7) and use its names. *)

(** Modelled from the spec: the numbers of the core (coordinates and
    planar distances), missing with the core itself.  The design is
    stated for exact comparisons with an inclusive boundary, so the
    numbers are any type with a total order, an absolute value, a
    negation and a finiteness test. *)
Class Scalar (F : Type) : Type := {
  leb : F -> F -> bool;
  fabs : F -> F;
  fneg : F -> F;
  finite : F -> bool;
  leb_total : forall x y, leb x y = true \/ leb y x = true;
  leb_trans : forall x y z, leb x y = true -> leb y z = true -> leb x z = true
}.

Section CoreDefinitions.

Context {F : Type} {SF : Scalar F}.

Definition fmax (x y : F) : F := if leb x y then y else x.

Definition feqb (x y : F) : bool := leb x y && leb y x.

(** Modelled from the spec: the data model of section 3 (Coordinate,
    Path, Pair). *)
Definition Coordinate : Type := (F * F)%type.

Definition Path : Type := list Coordinate.

Definition Pair : Type := (Coordinate * Coordinate)%type.

Definition coordinate_eqb (p q : Coordinate) : bool :=
  feqb (fst p) (fst q) && feqb (snd p) (snd q).

Definition coordinate_finite (p : Coordinate) : bool :=
  finite (fst p) && finite (snd p).

(** Modelled from the spec: what the design leaves to the implementer
    and no property below depends on: the representation of an angle, the
    heading of a path that has one, the planar projection and its
    inverse, the path's midpoint, the along-axis half-extent (path span
    plus margin), and the start, growth step and cap of the iterative
    method. *)
Class Frame (Angle : Type) : Type := {
  heading : Path -> Angle;
  midpoint : Path -> Coordinate;
  project : Angle -> Coordinate -> Coordinate -> F * F;
  unproject : Angle -> Coordinate -> F * F -> Coordinate;
  along_half_extent : list (F * F) -> F;
  initial_half_extent : F;
  grow : F -> F;
  iteration_cap : nat
}.

Context {Angle : Type} {FR : Frame Angle}.

(** Modelled from the spec: the Oriented Rectangle of section 3, an
    angle, a center and two half-extents. *)
Record OrientedRectangle : Type := {
  angle : Angle;
  center : Coordinate;
  along_extent : F;
  cross_extent : F
}.

(** Modelled from the spec: the four corners a rectangle is exposed as
    (sections 3, 4.3 and 6): the four extent corners, counter-clockwise,
    taken back to the original frame about the center. *)
Definition Corners : Type :=
  (Coordinate * Coordinate * Coordinate * Coordinate)%type.

Definition corners (r : OrientedRectangle) : Corners :=
  let a := along_extent r in
  let c := cross_extent r in
  let back := unproject (angle r) (center r) in
  (back (fneg a, fneg c), back (a, fneg c), back (a, c), back (fneg a, c)).

(** Modelled from the spec: the Orientation Estimator (section 4.1); it
    fails when all points of the path coincide. *)
Definition all_coincide (path : Path) : bool :=
  match path with
  | [] => true
  | p :: rest => forallb (coordinate_eqb p) rest
  end.

Definition estimate_orientation (path : Path) : result Angle :=
  if all_coincide path then Raise DegenerateRouteError
  else Ok (heading path).

(** Ascending sort of the per-pair maxima. *)
Fixpoint insert_sorted (x : F) (l : list F) : list F :=
  match l with
  | [] => [x]
  | y :: rest => if leb x y then x :: l else y :: insert_sorted x rest
  end.

Definition sort_ascending (l : list F) : list F :=
  fold_right insert_sorted [] l.

(** The governing quantity of a projected pair:
    [max(|v_origin|, |v_destination|)]. *)
Definition governing_maximum (uv : (F * F) * (F * F)) : F :=
  fmax (fabs (snd (fst uv))) (fabs (snd (snd uv))).

(** The number of projected pairs with both endpoints within a cross-axis
    half-extent. *)
Definition count_within_cross (h : F) (pair_uv : list ((F * F) * (F * F)))
  : nat :=
  List.length
    (filter (fun uv => leb (fabs (snd (fst uv))) h
                       && leb (fabs (snd (snd uv))) h) pair_uv).

(** Modelled from the spec: the iterative method (section 4.3): grow the
    half-extent and recount until the threshold is met or the cap is
    reached. *)
Fixpoint iterative_cross_extent (steps : nat) (h : F)
    (pair_uv : list ((F * F) * (F * F))) (min_pairs : nat) : F :=
  match steps with
  | O => h
  | S steps' =>
      if (min_pairs <=? count_within_cross h pair_uv)%nat then h
      else iterative_cross_extent steps' (grow h) pair_uv min_pairs
  end.

Inductive Method : Type := Percentile | Iterative.

(** Modelled from the spec: the Corridor Sizer (section 4.3), on the
    projected path and the projected pairs; it returns the along-axis
    and cross-axis half-extents. *)
Definition size_corridor (path_uv : list (F * F))
    (pair_uv : list ((F * F) * (F * F))) (min_pairs : Z) (method : Method)
  : result (F * F) :=
  if (Z.of_nat (List.length pair_uv) <? min_pairs)%Z
  then Raise InsufficientPairsError
  else
    let along := along_half_extent path_uv in
    match method with
    | Percentile =>
        let maxima := sort_ascending (map governing_maximum pair_uv) in
        match nth_error maxima (Z.to_nat min_pairs - 1) with
        | Some cross => Ok (along, cross)
        | None => Raise InsufficientPairsError
        end
    | Iterative =>
        Ok (along,
            iterative_cross_extent iteration_cap initial_half_extent
              pair_uv (Z.to_nat min_pairs))
    end.

Definition project_pair (theta : Angle) (origin : Coordinate) (pr : Pair)
  : (F * F) * (F * F) :=
  (project theta origin (fst pr), project theta origin (snd pr)).

(** Modelled from the spec: [compute_oriented_corridor] (section 6).
    A request for more pairs than are supplied is refused first, whatever
    the path (section 8: it must raise [InsufficientPairsError]); then
    come input validation (section 7) and the data flow of section 2,
    the estimator, the projector about the path's midpoint and the
    sizer. *)
Definition compute_oriented_corridor (path : Path) (pairs : list Pair)
    (min_pairs : Z) (method : Method) : result OrientedRectangle :=
  if (Z.of_nat (List.length pairs) <? min_pairs)%Z
  then Raise InsufficientPairsError
  else if (List.length path <? 2)%nat then Raise InvalidInputError
  else if negb (forallb coordinate_finite path
                && forallb (fun pr => coordinate_finite (fst pr)
                                      && coordinate_finite (snd pr)) pairs)
  then Raise InvalidInputError
  else if (min_pairs <=? 0)%Z then Raise InvalidInputError
  else
    theta <- estimate_orientation path ;;
    let origin := midpoint path in
    let path_uv := map (project theta origin) path in
    let pair_uv := map (project_pair theta origin) pairs in
    extents <- size_corridor path_uv pair_uv min_pairs method ;;
    Ok {| angle := theta;
          center := origin;
          along_extent := fst extents;
          cross_extent := snd extents |}.

(** Modelled from the spec: the containment test of section 4.4, with
    inclusive bounds, split by axis. *)
Definition within_along (r : OrientedRectangle) (p : Coordinate) : bool :=
  leb (fabs (fst (project (angle r) (center r) p))) (along_extent r).

Definition within_cross (r : OrientedRectangle) (p : Coordinate) : bool :=
  leb (fabs (snd (project (angle r) (center r) p))) (cross_extent r).

Definition contains (r : OrientedRectangle) (p : Coordinate) : bool :=
  within_along r p && within_cross r p.

(** Modelled from the spec: what the filter reads from the four corners
    it is handed (sections 4.4 and 6): the rectangle's frame, that is
    its angle, its center and its two half-extents.  How the corners are
    read is left to the implementer; what the design relies on is that no
    point of a rectangle is lost when the rectangle is exposed as its
    corners and read back. *)
Class CornerReader : Type := {
  rectangle_of_corners : Corners -> OrientedRectangle;
  rectangle_of_corners_keeps :
    forall (r : OrientedRectangle) (p : Coordinate),
      contains r p = true ->
      contains (rectangle_of_corners (corners r)) p = true
}.

Context {CR : CornerReader}.

(** Modelled from the spec: the test of a pair (section 4.4): both
    endpoints inside with [require_both], either endpoint without. *)
Definition kept (box : Corners) (require_both : bool) (pr : Pair) : bool :=
  let r := rectangle_of_corners box in
  if require_both
  then contains r (fst pr) && contains r (snd pr)
  else contains r (fst pr) || contains r (snd pr).

(** Modelled from the spec: [filter_pairs_in_corridor] (sections 4.4 and
    6), on the four corners: the pairs that pass the test, as a value. *)
Definition filter_pairs_in_corridor (pairs : list Pair) (box : Corners)
    (require_both : bool) : list Pair :=
  filter (kept box require_both) pairs.

(** Modelled from the spec: lists of pairs as objects, for what section
    4.4 says of the input sequence.  The lists live in a store, by
    address; a new list is added at the end of the store. *)
Definition pair_store : Type := list (list Pair).

Definition read (st : pair_store) (a : address) : list Pair := nth a st [].

Definition allocate (st : pair_store) : pair_store * address :=
  ((st ++ [[]])%list, List.length st).

Definition append_to (st : pair_store) (a : address) (pr : Pair)
  : pair_store :=
  replace_nth st a (read st a ++ [pr])%list.

(** Modelled from the spec: [filter_pairs_in_corridor] on list objects:
    the call reads the input list, makes a new list and appends to it
    each pair that passes the test, in the order of the input; it
    returns the new store and the address of the new list. *)
Definition filter_pairs_in_corridor_obj (st : pair_store)
    (pairs_at : address) (box : Corners) (require_both : bool)
  : pair_store * address :=
  let '(st0, kept_at) := allocate st in
  (fold_left
     (fun st' pr =>
        if kept box require_both pr then append_to st' kept_at pr else st')
     (read st pairs_at) st0,
   kept_at).



End CoreDefinitions.

Arguments OrientedRectangle F Angle : clear implicits.
Arguments Frame F Angle : clear implicits.
Arguments CornerReader F {SF} Angle {FR}.

(** ** The core on exact rationals

    One implementation of the collaborators, used to run the core on
    concrete inputs: degrees as rationals, a heading kept as its
    direction vector (east, north) in the half-plane of angles
    [[-90, 90)], and distances in degrees scaled by the length of that
    vector (a scaled-degree planar unit, the same for every point). *)
Module PlanarQ.

Local Open Scope Q_scope.

Lemma Qle_bool_total (x y : Q) : Qle_bool x y = true \/ Qle_bool y x = true.
Proof.
  destruct (Qlt_le_dec x y) as [Hlt | Hle].
  - left. apply Qle_bool_iff, Qlt_le_weak, Hlt.
  - right. apply Qle_bool_iff, Hle.
Qed.

Lemma Qle_bool_trans (x y z : Q) :
  Qle_bool x y = true -> Qle_bool y z = true -> Qle_bool x z = true.
Proof.
  rewrite !Qle_bool_iff. apply Qle_trans.
Qed.

#[export] Instance scalar_Q : Scalar Q := {|
  leb := Qle_bool;
  fabs := Qabs;
  fneg := Qopp;
  finite := fun _ => true;
  leb_total := Qle_bool_total;
  leb_trans := Qle_bool_trans
|}.

Definition Direction : Type := (Q * Q)%type.

Definition Qeq_zero (x : Q) : bool := Qeq_bool x 0.

(** Displacement from [p] to [q], as (east, north) = (lon, lat). *)
Definition displacement (p q : Q * Q) : Direction :=
  (snd q - snd p, fst q - fst p).

Definition normalize (d : Direction) : Direction :=
  let '(dx, dy) := d in
  if negb (Qle_bool 0 dx) || (Qeq_zero dx && negb (Qle_bool dy 0))
  then (- dx, - dy) else d.

(** First-to-last direction; for a closed path, the direction to its
    first point away from the start. *)
Definition heading_Q (path : list (Q * Q)) : Direction :=
  match path with
  | [] => (1, 0)
  | p :: rest =>
      let d := displacement p (last rest p) in
      if Qeq_zero (fst d) && Qeq_zero (snd d)
      then
        match find (fun q => negb (coordinate_eqb p q)) rest with
        | Some q => normalize (displacement p q)
        | None => (1, 0)
        end
      else normalize d
  end.

Definition midpoint_Q (path : list (Q * Q)) : Q * Q :=
  match path with
  | [] => (0, 0)
  | p :: rest =>
      let q := last rest p in
      ((fst p + fst q) / 2, (snd p + snd q) / 2)
  end.

Definition project_Q (d : Direction) (origin p : Q * Q) : Q * Q :=
  let '(dx, dy) := d in
  let rx := snd p - snd origin in
  let ry := fst p - fst origin in
  (dx * rx + dy * ry, dx * ry - dy * rx).

Definition unproject_Q (d : Direction) (origin : Q * Q) (uv : Q * Q)
  : Q * Q :=
  let '(dx, dy) := d in
  let '(u, v) := uv in
  let n := dx * dx + dy * dy in
  (fst origin + (u * dy + v * dx) / n, snd origin + (u * dx - v * dy) / n).

(** The largest [|u|] of the projected path, which is its half-span
    about the midpoint, plus a twentieth of it as margin. *)
Definition along_half_extent_Q (path_uv : list (Q * Q)) : Q :=
  let us := map fst path_uv in
  let hi := fold_right fmax 0 (map Qabs us) in
  hi * (21 # 20).

#[export] Instance frame_Q : Frame Q Direction := {|
  heading := heading_Q;
  midpoint := midpoint_Q;
  project := project_Q;
  unproject := unproject_Q;
  along_half_extent := along_half_extent_Q;
  initial_half_extent := 1 # 1000;
  grow := fun h => h * 2;
  iteration_cap := 64
|}.

(** Reading the corners back: the direction of the edge from the first
    corner to the second, the middle of the diagonal from the first
    corner to the third, and the sizes of the second and third corners
    in that frame.  The fourth corner is not needed. *)
Definition rectangle_of_corners_Q (box : @Corners Q)
  : OrientedRectangle Q Direction :=
  let '(c0, c1, c2, _) := box in
  let d := displacement c0 c1 in
  let o := ((fst c0 + fst c2) / 2, (snd c0 + snd c2) / 2) in
  {| angle := d;
     center := o;
     along_extent := Qabs (fst (project_Q d o c1));
     cross_extent := Qabs (snd (project_Q d o c2)) |}.

Lemma Qinv_cancel (n : Q) : / n * n * / n == / n.
Proof.
  destruct (Qeq_dec n 0) as [E | E].
  - rewrite E. reflexivity.
  - field. exact E.
Qed.

Lemma scaled_within (k u a : Q) :
  Qabs u <= a -> Qabs (k * u) <= Qabs (k * a).
Proof.
  intros H. rewrite !Qabs_Qmult.
  rewrite !(Qmult_comm (Qabs k)).
  apply Qmult_le_compat_r; [| apply Qabs_nonneg].
  eapply Qle_trans; [exact H | apply Qle_Qabs].
Qed.

Lemma rectangle_of_corners_Q_keeps (r : OrientedRectangle Q Direction)
    (p : Q * Q) :
  contains r p = true ->
  contains (rectangle_of_corners_Q (corners r)) p = true.
Proof.
  destruct r as [[dx dy] [olat olon] a c], p as [lat lon].
  unfold contains, within_along, within_cross, corners, rectangle_of_corners_Q.
  cbn [angle center along_extent cross_extent project unproject frame_Q
       leb fabs fneg scalar_Q].
  unfold project_Q, unproject_Q, displacement. cbn [fst snd].
  rewrite !andb_true_iff, !Qle_bool_iff.
  set (inv := / (dx * dx + dy * dy)).
  set (k := 2 * a * inv).
  intros [Hu Hv].
  assert (Hk : k * ((dx * dx + dy * dy) * inv) == k).
  { pose proof (Qinv_cancel (dx * dx + dy * dy)) as Hc. fold inv in Hc.
    transitivity (2 * a * (inv * (dx * dx + dy * dy) * inv));
      [unfold k; ring | rewrite Hc; reflexivity]. }
  split.
  - apply (scaled_within k) in Hu.
    eapply Qle_trans; [| eapply Qle_trans; [exact Hu |]].
    + apply Qle_lteq. right. apply Qabs_wd. unfold k, Qdiv. fold inv.
      field.
    + apply Qle_lteq. right. apply Qabs_wd. rewrite <- Hk.
      unfold k, Qdiv. fold inv. field.
  - apply (scaled_within k) in Hv.
    eapply Qle_trans; [| eapply Qle_trans; [exact Hv |]].
    + apply Qle_lteq. right. apply Qabs_wd. unfold k, Qdiv. fold inv.
      field.
    + apply Qle_lteq. right. apply Qabs_wd. rewrite <- Hk.
      unfold k, Qdiv. fold inv. field.
Qed.

#[export] Instance corner_reader_Q : CornerReader Q Direction := {|
  rectangle_of_corners := rectangle_of_corners_Q;
  rectangle_of_corners_keeps := rectangle_of_corners_Q_keeps
|}.

End PlanarQ.

(** * Properties of the route data provider *)

(** [int / int] on sample operands, against CPython's results. *)
Example rounded_quotient_samples :
  rounded_quotient 1 5 = 0.2%float
  /\ rounded_quotient 1 3 = 0x1.5555555555555p-2%float
  /\ rounded_quotient 10 11 = 0x1.d1745d1745d17p-1%float
  /\ rounded_quotient (2 ^ 60 + 3) (2 ^ 60 + 5) = 1%float
  /\ rounded_quotient 7 (2 ^ 63) = 0x1.cp-61%float.
Proof.
  repeat split; vm_compute; reflexivity.
Qed.

(** ** Densification *)

Section Densify.

Variable polyline : list LatLon.
Variable points_per_segment : Z.

Let ks : list Z := range 1 (points_per_segment + 1).

(** The interpolated points of segment [i], in the order the inner loop
    appends them. *)
Definition segment_points (default : LatLon) (i : nat) : list LatLon :=
  map (lerp (nth i polyline default) (nth (S i) polyline default)
         points_per_segment) ks.

Lemma interpolate_lerp (p q : LatLon) (k : Z) :
  (0 < points_per_segment)%Z ->
  interpolate p q points_per_segment k = Ok (lerp p q points_per_segment k).
Proof.
  intros Hpos. destruct p as [lat1 lon1], q as [lat2 lon2].
  unfold interpolate, truediv, lerp.
  destruct (Z.eqb_spec (points_per_segment + 1) 0) as [E | _]; [lia |].
  reflexivity.
Qed.

Lemma inner_loop (p q : LatLon) (l : list Z) (dense : list LatLon) :
  (0 < points_per_segment)%Z ->
  fold_left
    (fun acc k =>
       d <- acc ;;
       x <- interpolate p q points_per_segment k ;;
       Ok (list_append d x))
    l (Ok dense)
  = Ok (dense ++ map (lerp p q points_per_segment) l).
Proof.
  intros Hpos. revert dense.
  induction l as [| k l IH]; intros dense; simpl.
  - now rewrite app_nil_r.
  - rewrite interpolate_lerp by assumption. simpl.
    rewrite IH. unfold list_append. now rewrite <- app_assoc.
Qed.

Lemma densify_segment_ok (default : LatLon) (dense : list LatLon) (i : nat) :
  (0 < points_per_segment)%Z ->
  (S i < List.length polyline)%nat ->
  densify_segment polyline points_per_segment dense i
  = Ok ((if (i =? 0)%nat then dense ++ [nth i polyline default] else dense)
        ++ segment_points default i
        ++ (if (i =? List.length polyline - 2)%nat
            then [nth (S i) polyline default] else [])).
Proof.
  intros Hpos Hi. unfold densify_segment, getitem.
  rewrite (nth_error_nth' polyline default) by lia.
  replace (i + 1)%nat with (S i) by lia.
  rewrite (nth_error_nth' polyline default) by lia.
  cbn [bind]. rewrite inner_loop by assumption. cbn [bind].
  unfold list_append, segment_points.
  destruct (i =? List.length polyline - 2)%nat.
  - now rewrite <- app_assoc.
  - now rewrite app_nil_r.
Qed.

(** The list after the first [m] iterations of the outer loop. *)
Definition dense_after (default : LatLon) (m : nat) : list LatLon :=
  match m with
  | O => []
  | S _ =>
      [nth 0 polyline default]
      ++ flat_map (segment_points default) (seq 0 m)
      ++ (if (m =? List.length polyline - 1)%nat
          then [nth m polyline default] else [])
  end.

Lemma outer_loop (default : LatLon) (m : nat) :
  (0 < points_per_segment)%Z ->
  (m < List.length polyline)%nat ->
  fold_left
    (fun acc i =>
       dense <- acc ;;
       densify_segment polyline points_per_segment dense i)
    (seq 0 m) (Ok [])
  = Ok (dense_after default m).
Proof.
  intros Hpos. induction m as [| m IH]; intros Hm; [reflexivity |].
  rewrite seq_S, fold_left_app, IH by lia. cbn [fold_left bind Nat.add].
  rewrite (densify_segment_ok default) by (assumption || lia).
  f_equal. unfold dense_after.
  replace (S m =? List.length polyline - 1)%nat
    with (m =? List.length polyline - 2)%nat
    by (destruct (Nat.eqb_spec m (List.length polyline - 2)),
          (Nat.eqb_spec (S m) (List.length polyline - 1)); lia || reflexivity).
  destruct m as [| m'].
  - cbn [Nat.eqb seq flat_map app]. now rewrite app_nil_r.
  - replace (S m' =? List.length polyline - 1)%nat with false
      by (symmetry; apply Nat.eqb_neq; lia).
    cbn [Nat.eqb]. rewrite (seq_S (S m')), flat_map_app. cbn [flat_map Nat.add].
    rewrite !app_nil_r, <- !app_assoc. reflexivity.
Qed.

(** The whole output for a polyline of at least two points and a
    positive subdivision count: the first point, the interpolated points
    of every segment in order, and the last point. *)
Definition dense_spec (default : LatLon) : list LatLon :=
  [nth 0 polyline default]
  ++ flat_map (segment_points default) (seq 0 (List.length polyline - 1))
  ++ [nth (List.length polyline - 1) polyline default].

Lemma densify_polyline_dense_spec (default : LatLon) :
  (2 <= List.length polyline)%nat ->
  (1 <= points_per_segment)%Z ->
  densify_polyline polyline points_per_segment = Ok (dense_spec default).
Proof.
  intros Hlen Hpos. unfold densify_polyline.
  destruct (Nat.ltb_spec (List.length polyline) 2) as [? | _]; [lia |].
  destruct (Z.leb_spec points_per_segment 0) as [? | _]; [lia |].
  cbn [orb]. rewrite (outer_loop default) by lia.
  unfold dense_after, dense_spec.
  destruct (List.length polyline - 1)%nat as [| n] eqn:E; [lia |].
  now rewrite Nat.eqb_refl.
Qed.

Lemma range_length (lo hi : Z) : List.length (range lo hi) = Z.to_nat (hi - lo).
Proof.
  unfold range. now rewrite length_map, length_seq.
Qed.

Lemma range_In (lo hi k : Z) : In k (range lo hi) -> (lo <= k < hi)%Z.
Proof.
  unfold range. rewrite in_map_iff. intros (n & <- & Hn).
  apply in_seq in Hn. lia.
Qed.

Lemma segment_points_length (default : LatLon) (i : nat) :
  List.length (segment_points default i) = Z.to_nat points_per_segment.
Proof.
  unfold segment_points, ks. rewrite length_map, range_length. f_equal. lia.
Qed.

Lemma flat_map_segment_points_length (default : LatLon) (l : list nat) :
  List.length (flat_map (segment_points default) l)
  = (List.length l * Z.to_nat points_per_segment)%nat.
Proof.
  induction l as [| i l IH]; [reflexivity |].
  cbn [flat_map]. rewrite length_app, segment_points_length, IH.
  cbn [List.length]. lia.
Qed.

Lemma dense_spec_length (default : LatLon) :
  List.length (dense_spec default)
  = ((List.length polyline - 1) * Z.to_nat points_per_segment + 2)%nat.
Proof.
  unfold dense_spec.
  rewrite !length_app, flat_map_segment_points_length, length_seq.
  cbn [List.length]. lia.
Qed.

End Densify.

Lemma segment_points_In (polyline : list LatLon) (k : Z) (default x : LatLon)
    (i : nat) :
  (S i < List.length polyline)%nat ->
  In x (segment_points polyline k default i) ->
  exists p q j,
    nth_error polyline i = Some p /\ nth_error polyline (S i) = Some q
    /\ (1 <= j <= k)%Z /\ x = lerp p q k j.
Proof.
  intros Hi Hx. unfold segment_points in Hx.
  apply in_map_iff in Hx. destruct Hx as (j & <- & Hj).
  apply range_In in Hj.
  exists (nth i polyline default), (nth (S i) polyline default), j.
  repeat split; try lia; apply nth_error_nth'; lia.
Qed.

(** Every interpolated point of the output lies on a segment between
    two consecutive input points. *)
Lemma interior_In (polyline : list LatLon) (k : Z) (default x : LatLon) :
  In x (flat_map (segment_points polyline k default)
          (seq 0 (List.length polyline - 1))) ->
  exists i p q j,
    nth_error polyline i = Some p /\ nth_error polyline (S i) = Some q
    /\ (1 <= j <= k)%Z /\ x = lerp p q k j.
Proof.
  intros Hx. apply in_flat_map in Hx. destruct Hx as (i & Hi & Hx).
  apply in_seq in Hi. exists i.
  apply (segment_points_In polyline k default); [lia | exact Hx].
Qed.

(** "Interior vertices are not elements of the output unless they
    coincide with an interpolated point", read on values. *)
Definition interior_vertices_only_as_interpolated
    (polyline : list LatLon) (k : Z) (dense : list LatLon) : Prop :=
  forall i v,
    (1 <= i <= List.length polyline - 2)%nat ->
    nth_error polyline i = Some v ->
    In v dense ->
    exists s p q j,
      nth_error polyline s = Some p /\ nth_error polyline (S s) = Some q
      /\ (1 <= j <= k)%Z /\ v = lerp p q k j.

(** The guard at the head of [densify_polyline]. *)
Lemma densify_polyline_guard (polyline : list LatLon) (k : Z) :
  (List.length polyline <? 2)%nat || (k <=? 0)%Z = true ->
  densify_polyline polyline k = Ok polyline.
Proof.
  intros Hguard. unfold densify_polyline. now rewrite Hguard.
Qed.

(** C8: with fewer than two points, or a subdivision count that is zero
    or negative, [densify_polyline] raises nothing and returns a list
    equal to its input. *)
Theorem densify_polyline_degenerate_copy :
  forall (polyline : list LatLon) (points_per_segment : Z),
    (List.length polyline < 2)%nat \/ (points_per_segment <= 0)%Z ->
    densify_polyline polyline points_per_segment = Ok polyline.
Proof.
  intros polyline k H. apply densify_polyline_guard.
  apply orb_true_iff.
  destruct H as [Hlen | Hk].
  - left. apply Nat.ltb_lt, Hlen.
  - right. apply Z.leb_le, Hk.
Qed.

Lemma densify_polyline_degenerate_copy_witness :
  densify_polyline [(37.7749, -122.4194)%float] 4
  = Ok [(37.7749, -122.4194)%float]
  /\ densify_polyline sf_to_sj_us101_anchors 0 = Ok sf_to_sj_us101_anchors
  /\ densify_polyline sf_to_sj_us101_anchors (-3) = Ok sf_to_sj_us101_anchors.
Proof.
  split; [| split]; apply densify_polyline_degenerate_copy.
  - left. simpl. lia.
  - right. lia.
  - right. lia.
Defined.

(** Two coordinates that a test tells apart are different. *)
Lemma told_apart (test : LatLon -> bool) (p q : LatLon) :
  test p = true -> test q = false -> p <> q.
Proof.
  intros Hp Hq E. rewrite E, Hq in Hp. discriminate.
Qed.

(** C9, counterexample: on the closed polyline
    [(0,0), (1,1), (0,0), (3,3)] with one point per segment the output is
    [(0,0), (0.5,0.5), (0.5,0.5), (1.5,1.5), (3,3)]: the interior vertex
    [p_2 = (0,0)] is an element of the output (it equals the first
    point) and coincides with no interpolated point. *)
Lemma densify_polyline_interior_vertex_counterexample :
  exists dense,
    densify_polyline [(0, 0); (1, 1); (0, 0); (3, 3)]%float 1 = Ok dense
    /\ ~ interior_vertices_only_as_interpolated
           [(0, 0); (1, 1); (0, 0); (3, 3)]%float 1 dense.
Proof.
  eexists. split; [vm_compute; reflexivity |].
  intros H.
  destruct (H 2%nat (0, 0)%float) as (s & p & q & j & Hp & Hq & Hj & E).
  - simpl. lia.
  - reflexivity.
  - left. reflexivity.
  - assert (j = 1%Z) as -> by lia.
    revert E.
    apply (told_apart (fun x => PrimFloat.ltb (fst x) 0.25%float));
      [reflexivity |].
    destruct s as [| [| [| s]]]; cbn in Hp, Hq.
    + injection Hp as <-. injection Hq as <-. vm_compute. reflexivity.
    + injection Hp as <-. injection Hq as <-. vm_compute. reflexivity.
    + injection Hp as <-. injection Hq as <-. vm_compute. reflexivity.
    + destruct s; discriminate.
Qed.

(** C9, as amended: for [n >= 2] points and [k >= 1] the output has
    exactly [(n - 1) * k + 2] elements, starts with the first input point
    and ends with the last one; every element in between is an
    interpolated point, so an interior input vertex is an element of the
    output only where it equals an interpolated point or the first or last
    input point. *)
Theorem densify_polyline_shape :
  forall (polyline : list LatLon) (k : Z),
    (2 <= List.length polyline)%nat ->
    (1 <= k)%Z ->
    exists dense,
      densify_polyline polyline k = Ok dense
      /\ Z.of_nat (List.length dense)
         = ((Z.of_nat (List.length polyline) - 1) * k + 2)%Z
      /\ nth_error dense 0 = nth_error polyline 0
      /\ nth_error dense (List.length dense - 1)
         = nth_error polyline (List.length polyline - 1)
      /\ (forall pos x,
            (0 < pos < List.length dense - 1)%nat ->
            nth_error dense pos = Some x ->
            exists s p q j,
              nth_error polyline s = Some p
              /\ nth_error polyline (S s) = Some q
              /\ (1 <= j <= k)%Z
              /\ x = lerp p q k j)
      /\ (forall i v,
            (1 <= i <= List.length polyline - 2)%nat ->
            nth_error polyline i = Some v ->
            In v dense ->
            nth_error polyline 0 = Some v
            \/ nth_error polyline (List.length polyline - 1) = Some v
            \/ exists s p q j,
                 nth_error polyline s = Some p
                 /\ nth_error polyline (S s) = Some q
                 /\ (1 <= j <= k)%Z
                 /\ v = lerp p q k j).
Proof.
  intros polyline k Hlen Hk.
  pose (default := (0, 0)%float : LatLon).
  pose (mid := flat_map (segment_points polyline k default)
                 (seq 0 (List.length polyline - 1))).
  assert (Hmid : List.length mid
                 = ((List.length polyline - 1) * Z.to_nat k)%nat).
  { unfold mid. now rewrite flat_map_segment_points_length, length_seq. }
  assert (Hshape : dense_spec polyline k default
                   = nth 0 polyline default
                       :: mid ++ [nth (List.length polyline - 1) polyline default])
    by reflexivity.
  exists (dense_spec polyline k default).
  split; [now apply densify_polyline_dense_spec |].
  assert (Hn : List.length (dense_spec polyline k default)
               = S (List.length mid + 1)).
  { rewrite Hshape. cbn [List.length]. now rewrite length_app. }
  split; [| split; [| split; [| split]]].
  - rewrite dense_spec_length. nia.
  - rewrite (nth_error_nth' polyline default) by lia.
    rewrite Hshape. reflexivity.
  - rewrite (nth_error_nth' polyline default) by lia.
    rewrite Hn, Hshape.
    replace (S (List.length mid + 1) - 1)%nat with (S (List.length mid)) by lia.
    cbn [nth_error]. rewrite nth_error_app2 by lia.
    rewrite Nat.sub_diag. reflexivity.
  - intros pos x Hpos Hx. rewrite Hn in Hpos. rewrite Hshape in Hx.
    destruct pos as [| pos]; [lia |]. cbn [nth_error] in Hx.
    rewrite nth_error_app1 in Hx by lia.
    apply nth_error_In in Hx. exact (interior_In _ _ _ _ Hx).
  - intros i v _ _ Hv. rewrite Hshape in Hv.
    destruct Hv as [<- | Hv].
    + left. apply nth_error_nth'. lia.
    + apply in_app_or in Hv. destruct Hv as [Hv | [<- | []]].
      * right. right. exact (interior_In _ _ _ _ Hv).
      * right. left. apply nth_error_nth'. lia.
Qed.

Lemma densify_polyline_shape_witness :
  exists dense,
    densify_polyline [(0, 0); (1, 1); (0, 0); (3, 3)]%float 1 = Ok dense
    /\ List.length dense = 5%nat
    /\ nth_error dense 0 = Some (0, 0)%float
    /\ nth_error dense 4 = Some (3, 3)%float.
Proof.
  destruct (densify_polyline_shape [(0, 0); (1, 1); (0, 0); (3, 3)]%float 1)
    as (dense & Hd & Hlen & Hfirst & Hlast & _).
  - simpl. lia.
  - lia.
  - exists dense. cbn [List.length] in Hlen.
    assert (Hn : List.length dense = 5%nat) by lia.
    rewrite Hn in Hlast. repeat split; assumption.
Defined.

(** ** Route tables *)

Definition is_path (route : list LatLon) : Prop := (2 <= List.length route)%nat.

(** [densify_polyline] raises on no input. *)
Lemma densify_polyline_returns (polyline : list LatLon) (k : Z) :
  exists dense, densify_polyline polyline k = Ok dense.
Proof.
  destruct (Nat.le_gt_cases 2 (List.length polyline)) as [Hlen | Hlen];
    [destruct (Z.le_gt_cases 1 k) as [Hk | Hk] |].
  - exists (dense_spec polyline k (0, 0)%float).
    now apply densify_polyline_dense_spec.
  - exists polyline. apply densify_polyline_guard.
    apply orb_true_iff. right. apply Z.leb_le. lia.
  - exists polyline. apply densify_polyline_guard.
    apply orb_true_iff. left. apply Nat.ltb_lt. lia.
Qed.

(** Densifying a path gives a path, whatever the subdivision count. *)
Lemma densify_polyline_is_path (polyline dense : list LatLon) (k : Z) :
  is_path polyline ->
  densify_polyline polyline k = Ok dense ->
  is_path dense.
Proof.
  unfold is_path. intros Hlen Hd.
  destruct (Z.le_gt_cases 1 k) as [Hk | Hk].
  - rewrite (densify_polyline_dense_spec polyline k (0, 0)%float) in Hd
      by assumption.
    injection Hd as <-. rewrite dense_spec_length. nia.
  - rewrite densify_polyline_guard in Hd
      by (apply orb_true_iff; right; apply Z.leb_le; lia).
    now injection Hd as <-.
Qed.

Lemma final_binding_is_path (l1 l2 l3 l4 : list LatLon) (k : Z)
    (k1 k2 k3 k4 : string) :
  is_path l1 -> is_path l2 -> is_path l3 -> is_path l4 ->
  exists routes,
    (a <- densify_polyline l1 k ;;
     b <- densify_polyline l2 k ;;
     c <- densify_polyline l3 k ;;
     d <- densify_polyline l4 k ;;
     Ok [ (k1, a); (k2, b); (k3, c); (k4, d) ]) = Ok routes
    /\ Forall is_path (values routes).
Proof.
  intros H1 H2 H3 H4.
  destruct (densify_polyline_returns l1 k) as [a Ha].
  destruct (densify_polyline_returns l2 k) as [b Hb].
  destruct (densify_polyline_returns l3 k) as [c Hc].
  destruct (densify_polyline_returns l4 k) as [d Hd].
  rewrite Ha, Hb, Hc, Hd. cbn [bind].
  eexists. split; [reflexivity |]. cbn [values map snd].
  repeat (apply Forall_cons;
          [eapply densify_polyline_is_path; [| eassumption]; assumption |]).
  apply Forall_nil.
Qed.

Lemma us101_anchors_path : is_path sf_to_sj_us101_anchors.
Proof. unfold is_path. cbv [sf_to_sj_us101_anchors List.length]. lia. Qed.

Lemma i280_anchors_path : is_path sf_to_sj_i280_anchors.
Proof. unfold is_path. cbv [sf_to_sj_i280_anchors List.length]. lia. Qed.

Lemma i80_anchors_path : is_path sf_to_sac_i80_anchors.
Proof. unfold is_path. cbv [sf_to_sac_i80_anchors List.length]. lia. Qed.

Lemma i880_anchors_path : is_path oakland_to_sj_i880_anchors.
Proof. unfold is_path. cbv [oakland_to_sj_i880_anchors List.length]. lia. Qed.

Lemma anchors_are_paths : Forall is_path (values anchor_highway_routes).
Proof.
  repeat apply Forall_cons; try apply Forall_nil.
  - exact us101_anchors_path.
  - exact i280_anchors_path.
  - exact i80_anchors_path.
  - exact i880_anchors_path.
Qed.

(** C7: every anchor route list, and every value of the final
    [base_highway_routes] and [hd_highway_routes] (which the module builds
    without raising), is a sequence of at least two coordinates. *)
Theorem supplied_paths_have_two_points :
  Forall is_path (values anchor_highway_routes)
  /\ (exists base,
        base_highway_routes = Ok base /\ Forall is_path (values base))
  /\ (exists hd,
        hd_highway_routes = Ok hd /\ Forall is_path (values hd)).
Proof.
  split; [exact anchors_are_paths | split].
  - apply final_binding_is_path.
    + exact us101_anchors_path.
    + exact i280_anchors_path.
    + exact i80_anchors_path.
    + exact i880_anchors_path.
  - apply final_binding_is_path.
    + exact us101_anchors_path.
    + exact i280_anchors_path.
    + exact i80_anchors_path.
    + exact i880_anchors_path.
Qed.

(** ** Further facts about the route tables *)

Lemma flat_map_block_nth {A : Type} (f : nat -> list A) (size : nat)
    (n s i j : nat) :
  (forall m, List.length (f m) = size) ->
  (i < n)%nat -> (j < size)%nat ->
  nth_error (flat_map f (seq s n)) (i * size + j) = nth_error (f (s + i)) j.
Proof.
  intros Hsize. revert s i.
  induction n as [| n IH]; intros s i Hi Hj; [lia |].
  cbn [seq flat_map]. destruct i as [| i].
  - rewrite nth_error_app1 by (rewrite Hsize; lia).
    now rewrite Nat.add_0_r.
  - rewrite nth_error_app2 by (rewrite Hsize; lia).
    rewrite Hsize.
    replace (S i * size + j - size)%nat with (i * size + j)%nat by lia.
    rewrite IH by lia. f_equal. f_equal. lia.
Qed.

Lemma range_nth (lo hi : Z) (n : nat) :
  (n < Z.to_nat (hi - lo))%nat ->
  nth_error (range lo hi) n = Some (lo + Z.of_nat n)%Z.
Proof.
  intros Hn. unfold range.
  rewrite nth_error_map, (nth_error_nth' _ 0%nat) by (rewrite length_seq; lia).
  rewrite seq_nth by lia. reflexivity.
Qed.

(** [densify_polyline] raises on no input at all. *)
Theorem densify_polyline_never_raises :
  forall (polyline : list LatLon) (points_per_segment : Z),
    exists dense, densify_polyline polyline points_per_segment = Ok dense.
Proof.
  intros polyline k. apply densify_polyline_returns.
Qed.

(** In the closed form of the output, point [j] of segment [i] is the
    element of index [1 + i * k + (j - 1)]. *)
Lemma dense_spec_positions (polyline : list LatLon) (k : Z) (default : LatLon)
    (i : nat) (j : Z) (p q : LatLon) :
  (1 <= k)%Z ->
  nth_error polyline i = Some p ->
  nth_error polyline (S i) = Some q ->
  (1 <= j <= k)%Z ->
  nth_error (dense_spec polyline k default)
    (1 + i * Z.to_nat k + (Z.to_nat j - 1))
  = Some (lerp p q k j).
Proof.
  intros Hk Hp Hq Hj.
  assert (Hi : (S i < List.length polyline)%nat)
    by (apply nth_error_Some; congruence).
  unfold dense_spec. cbn [app Nat.add nth_error].
  rewrite nth_error_app1
    by (rewrite flat_map_segment_points_length, length_seq; nia).
  rewrite (flat_map_block_nth _ (Z.to_nat k))
    by (try apply segment_points_length; lia).
  cbn [Nat.add]. unfold segment_points.
  rewrite nth_error_map, range_nth by lia.
  cbn [option_map].
  rewrite (nth_error_nth' polyline default) in Hp by lia.
  rewrite (nth_error_nth' polyline default) in Hq by lia.
  injection Hp as ->. injection Hq as ->.
  do 2 f_equal. lia.
Qed.

(** Where each interpolated point stands: point [j] of segment [i] is the
    element of index [1 + i * k + (j - 1)] of the output. *)
Theorem densify_polyline_positions :
  forall (polyline : list LatLon) (k : Z),
    (2 <= List.length polyline)%nat ->
    (1 <= k)%Z ->
    exists dense,
      densify_polyline polyline k = Ok dense
      /\ forall i j p q,
           nth_error polyline i = Some p ->
           nth_error polyline (S i) = Some q ->
           (1 <= j <= k)%Z ->
           nth_error dense (1 + i * Z.to_nat k + (Z.to_nat j - 1))
           = Some (lerp p q k j).
Proof.
  intros polyline k Hlen Hk.
  exists (dense_spec polyline k (0, 0)%float).
  split; [now apply densify_polyline_dense_spec |].
  intros i j p q Hp Hq Hj. now apply dense_spec_positions.
Qed.

Lemma densify_polyline_positions_witness :
  exists dense,
    densify_polyline sf_to_sj_us101_anchors 4 = Ok dense
    /\ nth_error dense 7
       = Some (lerp (37.7577, -122.3953)%float (37.7300, -122.3920)%float 4 3).
Proof.
  destruct (densify_polyline_positions sf_to_sj_us101_anchors 4)
    as (dense & Hd & Hpos).
  - cbv [sf_to_sj_us101_anchors List.length]. lia.
  - lia.
  - exists dense. split; [exact Hd |].
    apply (Hpos 1%nat 3%Z); [reflexivity | reflexivity | lia].
Defined.

(** C6: for a polyline of at least two points and [k >= 1],
    [densify_polyline] densifies by linear interpolation.  It returns a
    list that holds, for every segment [i] and every [1 <= j <= k], the
    point [p_i + (j / (k + 1)) * (p_{i+1} - p_i)] (at index
    [1 + i * k + (j - 1)]), and nothing else but the first and the last
    input point: every element is one of those two or such an
    interpolation of two consecutive input points. *)
Theorem densify_polyline_linear_interpolation :
  forall (polyline : list LatLon) (k : Z),
    (2 <= List.length polyline)%nat ->
    (1 <= k)%Z ->
    exists dense,
      densify_polyline polyline k = Ok dense
      /\ (forall i j p q,
            nth_error polyline i = Some p ->
            nth_error polyline (S i) = Some q ->
            (1 <= j <= k)%Z ->
            nth_error dense (1 + i * Z.to_nat k + (Z.to_nat j - 1))
            = Some (lerp p q k j))
      /\ (forall x, In x dense ->
            nth_error polyline 0 = Some x
            \/ nth_error polyline (List.length polyline - 1) = Some x
            \/ exists i p q j,
                 nth_error polyline i = Some p
                 /\ nth_error polyline (S i) = Some q
                 /\ (1 <= j <= k)%Z
                 /\ x = lerp p q k j).
Proof.
  intros polyline k Hlen Hk.
  exists (dense_spec polyline k (0, 0)%float).
  split; [now apply densify_polyline_dense_spec | split].
  - intros i j p q Hp Hq Hj. now apply dense_spec_positions.
  - intros x Hx. unfold dense_spec in Hx.
    apply in_app_or in Hx. destruct Hx as [[<- | []] | Hx].
    + left. apply nth_error_nth'. lia.
    + apply in_app_or in Hx. destruct Hx as [Hx | [<- | []]].
      * right. right. exact (interior_In _ _ _ _ Hx).
      * right. left. apply nth_error_nth'. lia.
Qed.

Lemma densify_polyline_linear_interpolation_witness :
  exists dense,
    densify_polyline sf_to_sj_us101_anchors 4 = Ok dense
    /\ nth_error dense 10
       = Some (lerp (37.7300, -122.3920)%float (37.7060, -122.4050)%float 4 2)
    /\ forall x, In x dense ->
         nth_error sf_to_sj_us101_anchors 0 = Some x
         \/ nth_error sf_to_sj_us101_anchors
              (List.length sf_to_sj_us101_anchors - 1) = Some x
         \/ exists i p q j,
              nth_error sf_to_sj_us101_anchors i = Some p
              /\ nth_error sf_to_sj_us101_anchors (S i) = Some q
              /\ (1 <= j <= 4)%Z
              /\ x = lerp p q 4 j.
Proof.
  destruct (densify_polyline_linear_interpolation sf_to_sj_us101_anchors 4)
    as (dense & Hd & Hpos & Hin).
  - cbv [sf_to_sj_us101_anchors List.length]. lia.
  - lia.
  - exists dense. split; [exact Hd | split; [| exact Hin]].
    apply (Hpos 2%nat 2%Z); [reflexivity | reflexivity | lia].
Defined.

(** The comprehension that first binds [base_highway_routes] builds the
    very dictionary of the final binding, keys and points alike. *)
Theorem base_highway_routes_rebinding :
  base_highway_routes_comprehension = base_highway_routes.
Proof.
  vm_compute. reflexivity.
Qed.

(** The sizes of the routes: [(n - 1) * 4 + 2] and [(n - 1) * 10 + 2]
    points for the final bindings; the first binding of
    [hd_highway_routes] densified the base routes instead and was ten
    times as long. *)
Theorem highway_route_sizes :
  (exists base,
      base_highway_routes = Ok base
      /\ map (fun route => List.length route) (values base)
         = [54; 50; 58; 58]%nat)
  /\ (exists hd,
        hd_highway_routes = Ok hd
        /\ map (fun route => List.length route) (values hd)
           = [132; 122; 142; 142]%nat)
  /\ (exists hd,
        hd_highway_routes_comprehension = Ok hd
        /\ keys hd = keys_of_hd_highway_routes
        /\ map (fun route => List.length route) (values hd)
           = [532; 492; 572; 572]%nat).
Proof.
  split; [| split]; eexists;
    (split; [vm_compute; reflexivity |]); try split; vm_compute; reflexivity.
Qed.

(** What the literals at the end of the module change: they bind
    [base_highway_routes] to the very dictionary the comprehension had
    built, but not [hd_highway_routes].  Under the same keys, the
    comprehension had densified the base routes, and each of its routes
    had [4 * n + 4] points where the final one has [n]. *)
Theorem highway_routes_rebinding :
  base_highway_routes_comprehension = base_highway_routes
  /\ exists first final,
       hd_highway_routes_comprehension = Ok first
       /\ hd_highway_routes = Ok final
       /\ keys first = keys final
       /\ map (fun route => List.length route) (values first)
          = map (fun route => (4 * List.length route + 4)%nat)
              (values final).
Proof.
  split; [vm_compute; reflexivity |].
  eexists. eexists.
  split; [vm_compute; reflexivity |].
  split; [vm_compute; reflexivity |].
  split; vm_compute; reflexivity.
Qed.

(** The delivery tables hold 17, 10, 17 and 16 pairs, 60 in all. *)
Theorem delivery_pair_counts :
  map (fun pairs => List.length pairs) (values delivery_route_pairs)
  = [17; 10; 17; 16]%nat
  /\ List.length get_all_delivery_pairs = 60%nat.
Proof.
  split; vm_compute; reflexivity.
Qed.

(** Every call of the examples hands the core a route of at least two
    points and at least as many pairs as the minimum it asks for. *)
Theorem example_requests_are_feasible :
  Forall
    (fun request =>
       exists route delivery_pairs,
         example_inputs (fst request) = Ok (route, delivery_pairs)
         /\ (2 <= List.length route)%nat
         /\ (1 <= snd request <= Z.of_nat (List.length delivery_pairs))%Z)
    example_requests
  /\ (1 <= example_4_min_required
      <= Z.of_nat (List.length get_all_delivery_pairs))%Z.
Proof.
  split.
  - repeat (apply Forall_cons;
            [eexists; eexists;
             split; [vm_compute; reflexivity |];
             split; [cbn [List.length]; lia | cbn; lia] |]).
    apply Forall_nil.
  - vm_compute. split; discriminate.
Qed.

(** ** Delivery pairs *)

Definition route_names : list string :=
  [ "sf_to_sj_us101"; "sf_to_sj_i280"; "sf_to_sac_i80";
    "oakland_to_sj_i880" ]%string.

Definition raises_ValueError {A : Type} (r : result A) : Prop :=
  exists msg, r = Raise (ValueError msg).

Lemma get_delivery_pairs_for_route_cases (route_name : string) :
  (In route_name route_names
   /\ exists pairs, get_delivery_pairs_for_route route_name = Ok pairs)
  \/ (~ In route_name route_names
      /\ raises_ValueError (get_delivery_pairs_for_route route_name)).
Proof.
  unfold get_delivery_pairs_for_route, raises_ValueError, route_names.
  cbn [lookup In].
  destruct (String.eqb_spec route_name "sf_to_sj_us101") as [-> | N1];
    [left; split; [tauto | eexists; reflexivity] |].
  destruct (String.eqb_spec route_name "sf_to_sj_i280") as [-> | N2];
    [left; split; [tauto | eexists; reflexivity] |].
  destruct (String.eqb_spec route_name "sf_to_sac_i80") as [-> | N3];
    [left; split; [tauto | eexists; reflexivity] |].
  destruct (String.eqb_spec route_name "oakland_to_sj_i880") as [-> | N4];
    [left; split; [tauto | eexists; reflexivity] |].
  right. split; [| eexists; reflexivity].
  intros [E | [E | [E | [E | []]]]]; congruence.
Qed.

(** C10: [get_delivery_pairs_for_route] raises [ValueError] exactly on
    the names other than the four route names, returns the route's own
    table on each of the four, and [get_all_delivery_pairs] is the
    concatenation of the four tables in the dictionary's order. *)
Theorem delivery_pair_lookup :
  (forall route_name,
      raises_ValueError (get_delivery_pairs_for_route route_name)
      <-> ~ In route_name route_names)
  /\ get_delivery_pairs_for_route "sf_to_sj_us101" = Ok us101_delivery_routes
  /\ get_delivery_pairs_for_route "sf_to_sj_i280" = Ok i280_delivery_routes
  /\ get_delivery_pairs_for_route "sf_to_sac_i80" = Ok i80_delivery_routes
  /\ get_delivery_pairs_for_route "oakland_to_sj_i880"
     = Ok i880_delivery_routes
  /\ values delivery_route_pairs
     = [ us101_delivery_routes; i280_delivery_routes; i80_delivery_routes;
         i880_delivery_routes ]
  /\ get_all_delivery_pairs
     = us101_delivery_routes ++ i280_delivery_routes ++ i80_delivery_routes
       ++ i880_delivery_routes.
Proof.
  split; [| split; [| split; [| split; [| split; [| split]]]]];
    try reflexivity.
  intros route_name.
  destruct (get_delivery_pairs_for_route_cases route_name)
    as [[Hin [pairs E]] | [Hout Hraise]].
  - split; [| tauto]. intros [msg Hmsg]. congruence.
  - tauto.
Qed.

(** ** Densification as an operation on paths *)

(** Length and end points of the output, for a path and a positive
    subdivision count. *)
Lemma densify_polyline_ends (polyline : list LatLon) (k : Z) :
  (2 <= List.length polyline)%nat ->
  (1 <= k)%Z ->
  exists dense,
    densify_polyline polyline k = Ok dense
    /\ List.length dense
       = ((List.length polyline - 1) * Z.to_nat k + 2)%nat
    /\ nth_error dense 0 = nth_error polyline 0
    /\ nth_error dense (List.length dense - 1)
       = nth_error polyline (List.length polyline - 1).
Proof.
  intros Hlen Hk.
  pose (default := (0, 0)%float : LatLon).
  exists (dense_spec polyline k default).
  split; [now apply densify_polyline_dense_spec |].
  split; [apply dense_spec_length |].
  rewrite !(nth_error_nth' polyline default) by lia.
  rewrite dense_spec_length. unfold dense_spec.
  split; [reflexivity |].
  cbn [app]. rewrite app_comm_cons, nth_error_app2;
    cbn [List.length];
    rewrite flat_map_segment_points_length, length_seq; [| lia].
  replace ((List.length polyline - 1) * Z.to_nat k + 2 - 1
           - S ((List.length polyline - 1) * Z.to_nat k))%nat
    with 0%nat by lia.
  reflexivity.
Qed.

(** The output is never shorter than the input, and has the input's
    length exactly when the guard returns the copy. *)
Theorem densify_polyline_never_shortens :
  forall (polyline dense : list LatLon) (points_per_segment : Z),
    densify_polyline polyline points_per_segment = Ok dense ->
    (List.length polyline <= List.length dense)%nat
    /\ (List.length dense = List.length polyline
        <-> (List.length polyline < 2)%nat \/ (points_per_segment <= 0)%Z).
Proof.
  intros polyline dense k Hd.
  destruct (Nat.le_gt_cases 2 (List.length polyline)) as [Hlen | Hlen];
    [destruct (Z.le_gt_cases 1 k) as [Hk | Hk] |].
  - destruct (densify_polyline_ends polyline k Hlen Hk)
      as (dense' & Hd' & Hn & _).
    rewrite Hd in Hd'. injection Hd' as <-.
    split; [nia |]. split; [nia | lia].
  - rewrite densify_polyline_guard in Hd
      by (apply orb_true_iff; right; apply Z.leb_le; lia).
    injection Hd as <-. split; [lia |]. split; [right; lia | reflexivity].
  - rewrite densify_polyline_guard in Hd
      by (apply orb_true_iff; left; apply Nat.ltb_lt; lia).
    injection Hd as <-. split; [lia |]. split; [left; lia | reflexivity].
Qed.

Lemma densify_polyline_never_shortens_witness :
  exists dense,
    densify_polyline sf_to_sj_i280_anchors 4 = Ok dense
    /\ (List.length sf_to_sj_i280_anchors <= List.length dense)%nat.
Proof.
  destruct (densify_polyline_returns sf_to_sj_i280_anchors 4) as [dense Hd].
  exists dense. split; [exact Hd |].
  exact (proj1 (densify_polyline_never_shortens _ _ _ Hd)).
Defined.

(** Densifying twice, as the first binding of [hd_highway_routes] does:
    [a] points per segment and then [b] points per segment of the result
    give [((n - 1) * a + 1) * b + 2] points between the same end points. *)
Theorem densify_polyline_twice :
  forall (polyline : list LatLon) (a b : Z),
    (2 <= List.length polyline)%nat ->
    (1 <= a)%Z ->
    (1 <= b)%Z ->
    exists base hd,
      densify_polyline polyline a = Ok base
      /\ densify_polyline base b = Ok hd
      /\ Z.of_nat (List.length hd)
         = (((Z.of_nat (List.length polyline) - 1) * a + 1) * b + 2)%Z
      /\ nth_error hd 0 = nth_error polyline 0
      /\ nth_error hd (List.length hd - 1)
         = nth_error polyline (List.length polyline - 1).
Proof.
  intros polyline a b Hlen Ha Hb.
  destruct (densify_polyline_ends polyline a Hlen Ha)
    as (base & Hbase & Hn & Hfirst & Hlast).
  assert (Hlen' : (2 <= List.length base)%nat) by nia.
  destruct (densify_polyline_ends base b Hlen' Hb)
    as (hd & Hhd & Hm & Hfirst' & Hlast').
  exists base, hd. repeat split; try assumption.
  - rewrite Hm, Hn. nia.
  - congruence.
  - congruence.
Qed.

Lemma densify_polyline_twice_witness :
  exists base hd,
    densify_polyline sf_to_sj_us101_anchors 4 = Ok base
    /\ densify_polyline base 10 = Ok hd
    /\ Z.of_nat (List.length hd) = 532%Z.
Proof.
  destruct (densify_polyline_twice sf_to_sj_us101_anchors 4 10)
    as (base & hd & Hbase & Hhd & Hn & _).
  - cbv [sf_to_sj_us101_anchors List.length]. lia.
  - lia.
  - lia.
  - exists base, hd.
    split; [exact Hbase | split; [exact Hhd |]].
    rewrite Hn. reflexivity.
Defined.

(** ** Route names across the tables *)

Definition returns {A : Type} (r : result A) : Prop := exists a, r = Ok a.

(** [get_delivery_pairs_for_route] accepts exactly the keys of
    [base_highway_routes]; the keys of the other dictionaries of the
    module, [delivery_route_pairs] among them, raise [ValueError]. *)
Theorem accepted_route_names :
  (forall route_name,
      returns (get_delivery_pairs_for_route route_name)
      <-> exists routes,
            base_highway_routes = Ok routes /\ In route_name (keys routes))
  /\ Forall (fun key => raises_ValueError (get_delivery_pairs_for_route key))
       (keys delivery_route_pairs ++ keys anchor_highway_routes)
  /\ (exists hd,
        hd_highway_routes = Ok hd
        /\ Forall
             (fun key =>
                raises_ValueError (get_delivery_pairs_for_route key))
             (keys hd)).
Proof.
  assert (Hkeys : exists routes,
             base_highway_routes = Ok routes /\ keys routes = route_names).
  { eexists. split; vm_compute; reflexivity. }
  destruct Hkeys as (routes & Hroutes & Hk).
  split; [| split].
  - intros route_name.
    destruct (get_delivery_pairs_for_route_cases route_name)
      as [[Hin [pairs E]] | [Hout [msg Hraise]]].
    + split; [| intros _; exists pairs; exact E].
      intros _. exists routes. split; [exact Hroutes | now rewrite Hk].
    + split.
      * intros [pairs E]. congruence.
      * intros (routes' & Hroutes' & Hin).
        rewrite Hroutes in Hroutes'. injection Hroutes' as <-.
        rewrite Hk in Hin. contradiction.
  - repeat (apply Forall_cons; [eexists; vm_compute; reflexivity |]).
    apply Forall_nil.
  - eexists. split; [vm_compute; reflexivity |].
    repeat (apply Forall_cons; [eexists; vm_compute; reflexivity |]).
    apply Forall_nil.
Qed.

(** [get_all_delivery_pairs] holds exactly the pairs that some accepted
    route name returns. *)
Theorem all_delivery_pairs_union :
  forall pair,
    In pair get_all_delivery_pairs
    <-> exists route_name pairs,
          get_delivery_pairs_for_route route_name = Ok pairs
          /\ In pair pairs.
Proof.
  intros pair.
  assert (Hall : get_all_delivery_pairs
                 = us101_delivery_routes ++ i280_delivery_routes
                   ++ i80_delivery_routes ++ i880_delivery_routes)
    by reflexivity.
  rewrite Hall, !in_app_iff. split.
  - intros [H | [H | [H | H]]].
    + exists "sf_to_sj_us101"%string, us101_delivery_routes. now split.
    + exists "sf_to_sj_i280"%string, i280_delivery_routes. now split.
    + exists "sf_to_sac_i80"%string, i80_delivery_routes. now split.
    + exists "oakland_to_sj_i880"%string, i880_delivery_routes. now split.
  - intros (route_name & pairs & E & Hin).
    unfold get_delivery_pairs_for_route in E. cbn [lookup] in E.
    destruct (String.eqb route_name "sf_to_sj_us101");
      [injection E as <-; tauto |].
    destruct (String.eqb route_name "sf_to_sj_i280");
      [injection E as <-; tauto |].
    destruct (String.eqb route_name "sf_to_sac_i80");
      [injection E as <-; tauto |].
    destruct (String.eqb route_name "oakland_to_sj_i880");
      [injection E as <-; tauto | discriminate E].
Qed.

(** ** Sharing of the delivery tables *)

Lemma replace_nth_length {A : Type} (l : list A) (n : nat) (x : A) :
  List.length (replace_nth l n x) = List.length l.
Proof.
  revert n. induction l as [| y l IH]; intros [| n]; cbn; congruence.
Qed.

Lemma nth_replace_nth_same {A : Type} (l : list A) (n : nat) (x d : A) :
  (n < List.length l)%nat -> nth n (replace_nth l n x) d = x.
Proof.
  revert n. induction l as [| y l IH]; intros [| n] Hn; cbn in *;
    try lia; [reflexivity | apply IH; lia].
Qed.

Lemma nth_replace_nth_other {A : Type} (l : list A) (n m : nat) (x d : A) :
  n <> m -> nth m (replace_nth l n x) d = nth m l d.
Proof.
  revert n m. induction l as [| y l IH]; intros [| n] [| m] Hnm; cbn;
    try reflexivity; try congruence.
  apply IH. congruence.
Qed.

Lemma replace_nth_last {A : Type} (l : list A) (x y : A) :
  replace_nth (l ++ [y]) (List.length l) x = l ++ [x].
Proof.
  induction l as [| z l IH]; cbn; [reflexivity | now rewrite IH].
Qed.

(** The four names are bound to four different objects of the store, and
    the values of [delivery_route_pairs] are those objects. *)
Definition tables_bound (st : module_state) : Prop :=
  NoDup [ us101_delivery_routes_at st; i280_delivery_routes_at st;
          i80_delivery_routes_at st; i880_delivery_routes_at st ]
  /\ Forall (fun a => (a < List.length (objects st))%nat)
       [ us101_delivery_routes_at st; i280_delivery_routes_at st;
         i80_delivery_routes_at st; i880_delivery_routes_at st ]
  /\ values (delivery_route_pairs_at st)
     = [ us101_delivery_routes_at st; i280_delivery_routes_at st;
         i80_delivery_routes_at st; i880_delivery_routes_at st ].

(** The four tables one after the other, as the store holds them. *)
Definition tables_concatenated (st : module_state) : list (LatLon * LatLon) :=
  contents st (us101_delivery_routes_at st)
  ++ contents st (i280_delivery_routes_at st)
  ++ contents st (i80_delivery_routes_at st)
  ++ contents st (i880_delivery_routes_at st).

Lemma imported_tables_bound : tables_bound imported.
Proof.
  unfold tables_bound. cbn. split; [| split].
  - repeat constructor; cbn; intuition lia.
  - repeat constructor.
  - reflexivity.
Qed.

Lemma append_at_tables_bound (st : module_state) (a : address)
    (x : LatLon * LatLon) :
  tables_bound st -> tables_bound (append_at st a x).
Proof.
  unfold tables_bound, append_at, set_contents. cbn.
  now rewrite replace_nth_length.
Qed.

Lemma extend_at_fresh (st : module_state)
    (objs : list (list (LatLon * LatLon))) (acc : list (LatLon * LatLon))
    (a : address) :
  (a < List.length objs)%nat ->
  extend_at (with_objects st (objs ++ [acc])) (List.length objs) a
  = with_objects st (objs ++ [acc ++ nth a objs []]).
Proof.
  intros Ha. unfold extend_at, set_contents, contents, with_objects. cbn.
  rewrite replace_nth_last.
  rewrite (app_nth2 objs) by lia. rewrite Nat.sub_diag. cbn [nth].
  now rewrite (app_nth1 objs) by lia.
Qed.

Lemma get_all_delivery_pairs_obj_spec (st : module_state) :
  tables_bound st ->
  get_all_delivery_pairs_obj st
  = (with_objects st (objects st ++ [tables_concatenated st]),
     List.length (objects st)).
Proof.
  intros (_ & Hvalid & Hvalues).
  unfold get_all_delivery_pairs_obj, new_list. rewrite Hvalues.
  inversion Hvalid as [| ? ? H1 Hvalid1]; subst.
  inversion Hvalid1 as [| ? ? H2 Hvalid2]; subst.
  inversion Hvalid2 as [| ? ? H3 Hvalid3]; subst.
  inversion Hvalid3 as [| ? ? H4 _]; subst.
  cbn [fold_left].
  rewrite !extend_at_fresh by assumption.
  unfold tables_concatenated, contents. cbn [app].
  now rewrite <- !app_assoc.
Qed.

Lemma get_all_delivery_pairs_obj_contents (st : module_state) :
  tables_bound st ->
  contents (fst (get_all_delivery_pairs_obj st))
    (snd (get_all_delivery_pairs_obj st))
  = tables_concatenated st.
Proof.
  intros Hbound. rewrite get_all_delivery_pairs_obj_spec by assumption.
  cbn [fst snd]. unfold contents at 1. cbn [objects with_objects].
  rewrite app_nth2 by lia. now rewrite Nat.sub_diag.
Qed.

Lemma tables_concatenated_append_at (st : module_state) (a : address)
    (x : LatLon * LatLon) :
  tables_concatenated (append_at st a x)
  = contents (append_at st a x) (us101_delivery_routes_at st)
    ++ contents (append_at st a x) (i280_delivery_routes_at st)
    ++ contents (append_at st a x) (i80_delivery_routes_at st)
    ++ contents (append_at st a x) (i880_delivery_routes_at st).
Proof.
  reflexivity.
Qed.

Lemma contents_append_at_same (st : module_state) (a : address)
    (x : LatLon * LatLon) :
  (a < List.length (objects st))%nat ->
  contents (append_at st a x) a = contents st a ++ [x].
Proof.
  intros Ha. unfold append_at, set_contents, contents. cbn.
  now apply nth_replace_nth_same.
Qed.

Lemma contents_append_at_other (st : module_state) (a b : address)
    (x : LatLon * LatLon) :
  a <> b -> contents (append_at st a x) b = contents st b.
Proof.
  intros Hab. unfold append_at, set_contents, contents. cbn.
  now apply nth_replace_nth_other.
Qed.

Lemma get_delivery_pairs_for_route_obj_bound (st : module_state)
    (route_name : string) (a : address) :
  get_delivery_pairs_for_route_obj st route_name = Ok a ->
  In a [ us101_delivery_routes_at st; i280_delivery_routes_at st;
         i80_delivery_routes_at st; i880_delivery_routes_at st ].
Proof.
  unfold get_delivery_pairs_for_route_obj. cbn [lookup].
  destruct (String.eqb route_name "sf_to_sj_us101");
    [intros E; injection E as <-; cbn; tauto |].
  destruct (String.eqb route_name "sf_to_sj_i280");
    [intros E; injection E as <-; cbn; tauto |].
  destruct (String.eqb route_name "sf_to_sac_i80");
    [intros E; injection E as <-; cbn; tauto |].
  destruct (String.eqb route_name "oakland_to_sj_i880");
    [intros E; injection E as <-; cbn; tauto | discriminate].
Qed.

(** The store model agrees with the tables as values: after import the
    object a route name returns holds that route's table, and the object
    [get_all_delivery_pairs] returns holds their concatenation. *)
Lemma imported_agrees :
  (forall route_name,
      match get_delivery_pairs_for_route_obj imported route_name with
      | Ok a =>
          get_delivery_pairs_for_route route_name = Ok (contents imported a)
      | Raise e => get_delivery_pairs_for_route route_name = Raise e
      end)
  /\ contents (fst (get_all_delivery_pairs_obj imported))
       (snd (get_all_delivery_pairs_obj imported))
     = get_all_delivery_pairs.
Proof.
  split.
  - intros route_name.
    unfold get_delivery_pairs_for_route_obj, get_delivery_pairs_for_route.
    cbn [lookup us101_delivery_routes_at i280_delivery_routes_at
           i80_delivery_routes_at i880_delivery_routes_at imported].
    destruct (String.eqb route_name "sf_to_sj_us101"); [reflexivity |].
    destruct (String.eqb route_name "sf_to_sj_i280"); [reflexivity |].
    destruct (String.eqb route_name "sf_to_sac_i80"); [reflexivity |].
    destruct (String.eqb route_name "oakland_to_sj_i880"); reflexivity.
  - rewrite get_all_delivery_pairs_obj_spec by exact imported_tables_bound.
    reflexivity.
Qed.

(** [get_delivery_pairs_for_route] returns the module's own table, not a
    copy: once a caller appends a pair to the list it got, the same name
    returns the same object with the pair in it, and the pair is in what
    [get_all_delivery_pairs] returns from then on. *)
Theorem returned_table_is_shared :
  forall (st : module_state) (route_name : string) (a : address)
         (x : LatLon * LatLon),
    tables_bound st ->
    get_delivery_pairs_for_route_obj st route_name = Ok a ->
    get_delivery_pairs_for_route_obj (append_at st a x) route_name = Ok a
    /\ contents (append_at st a x) a = contents st a ++ [x]
    /\ In x (contents (fst (get_all_delivery_pairs_obj (append_at st a x)))
               (snd (get_all_delivery_pairs_obj (append_at st a x)))).
Proof.
  intros st route_name a x Hbound Hget.
  pose proof (get_delivery_pairs_for_route_obj_bound _ _ _ Hget) as Hin.
  assert (Ha : (a < List.length (objects st))%nat).
  { destruct Hbound as (_ & Hvalid & _).
    rewrite Forall_forall in Hvalid. now apply Hvalid. }
  split; [exact Hget | split; [now apply contents_append_at_same |]].
  rewrite get_all_delivery_pairs_obj_contents
    by now apply append_at_tables_bound.
  rewrite tables_concatenated_append_at, !in_app_iff.
  destruct Hin as [<- | [<- | [<- | [<- | []]]]];
    rewrite contents_append_at_same by exact Ha; rewrite in_app_iff;
    cbn [In]; tauto.
Qed.

Lemma returned_table_is_shared_witness :
  exists a,
    get_delivery_pairs_for_route_obj imported "sf_to_sj_i280" = Ok a
    /\ contents
         (append_at imported a ((37.0, -122.0), (37.5, -122.5))%float) a
       = i280_delivery_routes ++ [((37.0, -122.0), (37.5, -122.5))%float].
Proof.
  exists 1%nat. split; [reflexivity |].
  apply (returned_table_is_shared imported "sf_to_sj_i280" 1%nat).
  - exact imported_tables_bound.
  - reflexivity.
Defined.

(** [get_all_delivery_pairs] returns a list of its own: a new object
    holding the four tables one after the other.  The call changes no
    existing list, and a caller who appends to the result changes no
    table and not what a later call returns. *)
Theorem all_pairs_is_a_new_list :
  forall (st : module_state) (x : LatLon * LatLon),
    tables_bound st ->
    snd (get_all_delivery_pairs_obj st) = List.length (objects st)
    /\ contents (fst (get_all_delivery_pairs_obj st))
         (snd (get_all_delivery_pairs_obj st))
       = tables_concatenated st
    /\ (forall a, (a < List.length (objects st))%nat ->
          contents (fst (get_all_delivery_pairs_obj st)) a = contents st a
          /\ contents
               (append_at (fst (get_all_delivery_pairs_obj st))
                  (snd (get_all_delivery_pairs_obj st)) x) a
             = contents st a)
    /\ contents
         (fst (get_all_delivery_pairs_obj
                 (append_at (fst (get_all_delivery_pairs_obj st))
                    (snd (get_all_delivery_pairs_obj st)) x)))
         (snd (get_all_delivery_pairs_obj
                 (append_at (fst (get_all_delivery_pairs_obj st))
                    (snd (get_all_delivery_pairs_obj st)) x)))
       = tables_concatenated st.
Proof.
  intros st x Hbound.
  rewrite (get_all_delivery_pairs_obj_spec st Hbound). cbn [fst snd].
  set (st1 := with_objects st (objects st ++ [tables_concatenated st])).
  assert (Hold : forall a, (a < List.length (objects st))%nat ->
                   contents st1 a = contents st a).
  { intros a Ha. unfold contents, st1. cbn [objects with_objects].
    now rewrite app_nth1. }
  assert (Hbound1 : tables_bound st1).
  { destruct Hbound as (Hnodup & Hvalid & Hvalues).
    unfold tables_bound, st1. cbn. split; [exact Hnodup | split].
    - eapply Forall_impl; [| exact Hvalid].
      intros a Ha. cbn in Ha. rewrite length_app. cbn. lia.
    - exact Hvalues. }
  assert (Hold2 : forall a, (a < List.length (objects st))%nat ->
                    contents (append_at st1 (List.length (objects st)) x) a
                    = contents st a).
  { intros a Ha. rewrite contents_append_at_other by lia. now apply Hold. }
  split; [reflexivity | split; [| split]].
  - unfold contents, st1. cbn [objects with_objects].
    rewrite app_nth2 by lia. now rewrite Nat.sub_diag.
  - intros a Ha. split; [now apply Hold | now apply Hold2].
  - rewrite get_all_delivery_pairs_obj_contents
      by now apply append_at_tables_bound.
    rewrite tables_concatenated_append_at.
    destruct Hbound as (_ & Hvalid & _).
    inversion Hvalid as [| ? ? H1 Hvalid1]; subst.
    inversion Hvalid1 as [| ? ? H2 Hvalid2]; subst.
    inversion Hvalid2 as [| ? ? H3 Hvalid3]; subst.
    inversion Hvalid3 as [| ? ? H4 _]; subst.
    change (us101_delivery_routes_at st1)
      with (us101_delivery_routes_at st).
    change (i280_delivery_routes_at st1)
      with (i280_delivery_routes_at st).
    change (i80_delivery_routes_at st1)
      with (i80_delivery_routes_at st).
    change (i880_delivery_routes_at st1)
      with (i880_delivery_routes_at st).
    now rewrite !Hold2 by assumption.
Qed.

Lemma all_pairs_is_a_new_list_witness :
  snd (get_all_delivery_pairs_obj imported) = 4%nat
  /\ contents (fst (get_all_delivery_pairs_obj imported))
       (snd (get_all_delivery_pairs_obj imported))
     = tables_concatenated imported.
Proof.
  destruct (all_pairs_is_a_new_list imported
              ((37.0, -122.0), (37.5, -122.5))%float imported_tables_bound)
    as (Hnew & Hall & _).
  split; [exact Hnew | exact Hall].
Defined.

(** ** Runs of the printing and drawing code *)

Lemma files_saved_app (t t' : list event) :
  files_saved (t ++ t') = (files_saved t ++ files_saved t')%list.
Proof.
  unfold files_saved. apply flat_map_app.
Qed.

(** A run that returns [a] after saving the files [files], in order. *)
Definition runs {A : Type} (c : io A) (a : A) (files : list string) : Prop :=
  exists t, c = (t, Ok a) /\ files_saved t = files.

(** A run that ends in the exception [e] after saving [files]. *)
Definition fails {A : Type} (c : io A) (e : exception) (files : list string)
  : Prop :=
  exists t, c = (t, Raise e) /\ files_saved t = files.

Lemma runs_bind {A B : Type} (c : io A) (k : A -> io B) (a : A) (b : B)
    (files1 files2 files : list string) :
  runs c a files1 -> runs (k a) b files2 -> files = (files1 ++ files2)%list ->
  runs (x <~ c ;; k x) b files.
Proof.
  intros (t1 & -> & H1) (t2 & E2 & H2) ->.
  exists (t1 ++ t2)%list. unfold io_bind. rewrite E2.
  split; [reflexivity |]. now rewrite files_saved_app, H1, H2.
Qed.

Lemma fails_bind_first {A B : Type} (c : io A) (k : A -> io B)
    (e : exception) (files : list string) :
  fails c e files -> fails (x <~ c ;; k x) e files.
Proof.
  intros (t & -> & H). exists t. now split.
Qed.

Lemma fails_bind_later {A B : Type} (c : io A) (k : A -> io B) (a : A)
    (e : exception) (files1 files2 files : list string) :
  runs c a files1 -> fails (k a) e files2 -> files = (files1 ++ files2)%list ->
  fails (x <~ c ;; k x) e files.
Proof.
  intros (t1 & -> & H1) (t2 & E2 & H2) ->.
  exists (t1 ++ t2)%list. unfold io_bind. rewrite E2.
  split; [reflexivity |]. now rewrite files_saved_app, H1, H2.
Qed.

Lemma runs_ret {A : Type} (a : A) : runs (io_ret a) a [].
Proof.
  now exists [].
Qed.

Lemma runs_print (text : string) : runs (emit (Print text)) tt [].
Proof.
  now exists [Print text].
Qed.

Lemma runs_lift {A : Type} (r : result A) (a : A) :
  r = Ok a -> runs (lift r) a [].
Proof.
  intros ->. now exists [].
Qed.

Lemma fails_lift {A : Type} (r : result A) (e : exception) :
  r = Raise e -> fails (lift r : io A) e [].
Proof.
  intros ->. now exists [].
Qed.

(** A loop whose every round returns without saving does the same. *)
Lemma runs_for_each_quiet {A : Type} (l : list A) (body : A -> io unit) :
  (forall x, In x l -> runs (body x) tt []) -> runs (for_each l body) tt [].
Proof.
  induction l as [| x l IH]; intros H; cbn [for_each].
  - apply runs_ret.
  - eapply runs_bind; [apply H; now left | | reflexivity].
    apply IH. intros y Hy. apply H. now right.
Qed.

Lemma for_each_length {A : Type} (l : list A) (body : A -> io unit)
    (n : nat) :
  (forall x, In x l ->
     exists t, body x = (t, Ok tt) /\ List.length t = n) ->
  exists t,
    for_each l body = (t, Ok tt) /\ List.length t = (List.length l * n)%nat.
Proof.
  induction l as [| x l IH]; intros H; cbn [for_each].
  - now exists [].
  - destruct (H x (or_introl eq_refl)) as (t1 & E1 & H1).
    destruct IH as (t2 & E2 & H2);
      [intros y Hy; apply H; now right |].
    exists (t1 ++ t2)%list. unfold io_bind. rewrite E1, E2.
    split; [reflexivity |]. rewrite length_app. cbn [List.length]. lia.
Qed.

Lemma truediv_returns (a b : Z) :
  b <> 0%Z -> truediv a b = Ok (rounded_quotient a b).
Proof.
  intros Hb. unfold truediv.
  now destruct (Z.eqb_spec b 0).
Qed.

Lemma comprehension_four_corners (bbox_corners : list LatLon) :
  (4 <= List.length bbox_corners)%nat ->
  exists c0 c1 c2 c3 rest,
    bbox_corners = c0 :: c1 :: c2 :: c3 :: rest
    /\ comprehension
         (fun i => corner <- getitem bbox_corners i ;;
                   Ok (fst corner, snd corner))
         (seq 0 4)
       = Ok [ (fst c0, snd c0); (fst c1, snd c1); (fst c2, snd c2);
              (fst c3, snd c3) ].
Proof.
  intros Hlen.
  destruct bbox_corners as [| c0 [| c1 [| c2 [| c3 rest]]]];
    cbn in Hlen; try lia.
  exists c0, c1, c2, c3, rest. split; reflexivity.
Qed.

Lemma comprehension_missing_corner (bbox_corners : list LatLon) :
  (List.length bbox_corners < 4)%nat ->
  comprehension
    (fun i => corner <- getitem bbox_corners i ;;
              Ok (fst corner, snd corner))
    (seq 0 4)
  = Raise IndexError.
Proof.
  intros Hlen.
  destruct bbox_corners as [| c0 [| c1 [| c2 [| c3 rest]]]];
    cbn in Hlen; try lia; reflexivity.
Qed.

(** A run that saves exactly the files [names] when it returns, and a
    proper initial part of them when it raises. *)
Definition saves_within {A : Type} (c : io A) (names : list string) : Prop :=
  match snd c with
  | Ok _ => files_saved (fst c) = names
  | Raise _ =>
      exists rest, rest <> [] /\ (files_saved (fst c) ++ rest)%list = names
  end.

Lemma within_after_quiet {A B : Type} (c : io A) (k : A -> io B) (a : A)
    (names : list string) :
  runs c a [] -> saves_within (k a) names ->
  saves_within (x <~ c ;; k x) names.
Proof.
  intros (t & -> & Ht). unfold saves_within, io_bind.
  destruct (k a) as [t' [b | e]]; cbn [fst snd];
    rewrite files_saved_app, Ht; exact (fun H => H).
Qed.

Lemma within_after_lift {A B : Type} (r : result A) (k : A -> io B)
    (names : list string) :
  names <> [] ->
  (forall a, r = Ok a -> saves_within (k a) names) ->
  saves_within (x <~ lift r ;; k x) names.
Proof.
  intros Hnames H. destruct r as [a | e].
  - specialize (H a eq_refl). unfold saves_within, lift, io_bind in *.
    destruct (k a) as [t' [b | e]]; exact H.
  - exists names. now split.
Qed.

Lemma within_then {A B : Type} (c : io A) (k : A -> io B)
    (names1 names2 : list string) :
  saves_within c names1 -> (forall a, saves_within (k a) names2) ->
  saves_within (x <~ c ;; k x) (names1 ++ names2).
Proof.
  destruct c as [t [a | e]]; unfold saves_within at 1; cbn [fst snd].
  - intros <- H. specialize (H a). unfold saves_within, io_bind in *.
    destruct (k a) as [t' [b | e]]; cbn [fst snd] in *;
      rewrite files_saved_app.
    + now rewrite H.
    + destruct H as (rest & Hrest & <-). exists rest.
      split; [exact Hrest | now rewrite app_assoc].
  - intros (rest & Hrest & <-) _. unfold saves_within. cbn [io_bind fst snd].
    exists (rest ++ names2)%list. split; [| now rewrite app_assoc].
    destruct rest; [congruence | discriminate].
Qed.

Lemma within_then_quiet {A B : Type} (c : io A) (k : A -> io B)
    (names : list string) :
  saves_within c names -> (forall a, exists b, runs (k a) b []) ->
  saves_within (x <~ c ;; k x) names.
Proof.
  destruct c as [t [a | e]]; unfold saves_within at 1; cbn [fst snd].
  - intros <- H. destruct (H a) as (b & t' & E & Ht').
    unfold saves_within, io_bind. rewrite E. cbn [fst snd].
    now rewrite files_saved_app, Ht', app_nil_r.
  - intros H _. exact H.
Qed.

Lemma runs_within {A : Type} (c : io A) (a : A) (names : list string) :
  runs c a names -> saves_within c names.
Proof.
  intros (t & -> & H). exact H.
Qed.

(** *** Requests to folium *)

Definition is_save (e : event) : bool :=
  match e with
  | Save _ => true
  | _ => false
  end.

(** What is handed to folium, as opposed to printed. *)
Definition is_request (e : event) : bool :=
  match e with
  | Print _ => false
  | _ => true
  end.

(** A run that saves no file, however it ends. *)
Definition saves_nothing {A : Type} (c : io A) : Prop :=
  files_saved (fst c) = [].

Lemma saves_nothing_request (folium : event -> result unit) (e : event) :
  is_save e = false -> saves_nothing (request folium e).
Proof.
  intros He. unfold saves_nothing, request.
  destruct (folium e) as [[] | x]; [| reflexivity].
  destruct e; try reflexivity; discriminate He.
Qed.


Lemma saves_nothing_ret {A : Type} (a : A) : saves_nothing (io_ret a).
Proof.
  reflexivity.
Qed.

Lemma saves_nothing_bind {A B : Type} (c : io A) (k : A -> io B) :
  saves_nothing c -> (forall a, saves_nothing (k a)) ->
  saves_nothing (x <~ c ;; k x).
Proof.
  destruct c as [t [a | x]]; unfold saves_nothing; cbn [fst io_bind].
  - intros Ht Hk. specialize (Hk a). destruct (k a) as [t' r].
    cbn [fst] in *. now rewrite files_saved_app, Ht, Hk.
  - intros Ht _. exact Ht.
Qed.

Lemma saves_nothing_for_each {A : Type} (l : list A) (body : A -> io unit) :
  (forall x, saves_nothing (body x)) -> saves_nothing (for_each l body).
Proof.
  intros H. induction l as [| x l IH]; cbn [for_each].
  - apply saves_nothing_ret.
  - apply saves_nothing_bind; [apply H | intros _; exact IH].
Qed.

(** Folium accepts every request of a run. *)
Definition accepted (folium : event -> result unit) {A : Type} (c : io A)
  : Prop :=
  forall e, In e (fst c) -> is_request e = true -> folium e = Ok tt.

(** The run [c_f] with a library is the run [c_a] with the library that
    accepts everything, as soon as the library accepts the requests of
    [c_a]. *)
Definition agrees (folium : event -> result unit) {A : Type}
    (c_f c_a : io A) : Prop :=
  accepted folium c_a -> c_f = c_a.

Lemma agrees_refl (folium : event -> result unit) {A : Type} (c : io A) :
  agrees folium c c.
Proof.
  intros _. reflexivity.
Qed.

Lemma agrees_request (folium : event -> result unit) (e : event) :
  is_request e = true ->
  agrees folium (request folium e) (request accept_all e).
Proof.
  intros He Hacc. unfold request at 1.
  rewrite (Hacc e (or_introl eq_refl) He). reflexivity.
Qed.

Lemma agrees_bind (folium : event -> result unit) {A B : Type}
    (c_f c_a : io A) (k_f k_a : A -> io B) :
  agrees folium c_f c_a ->
  (forall a, agrees folium (k_f a) (k_a a)) ->
  agrees folium (x <~ c_f ;; k_f x) (x <~ c_a ;; k_a x).
Proof.
  intros Hc Hk Hacc.
  assert (Ec : c_f = c_a).
  { apply Hc. intros e He. apply Hacc.
    destruct c_a as [t [a | x]]; cbn [fst io_bind] in *; [| exact He].
    destruct (k_a a) as [t' r]. cbn [fst]. apply in_or_app. now left. }
  subst c_f. destruct c_a as [t [a | x]]; cbn [io_bind]; [| reflexivity].
  assert (Ek : k_f a = k_a a).
  { apply Hk. intros e He. apply Hacc. cbn [fst io_bind].
    destruct (k_a a) as [t' r]. cbn [fst] in *. apply in_or_app. now right. }
  now rewrite Ek.
Qed.

Lemma agrees_for_each (folium : event -> result unit) {A : Type}
    (l : list A) (body_f body_a : A -> io unit) :
  (forall x, agrees folium (body_f x) (body_a x)) ->
  agrees folium (for_each l body_f) (for_each l body_a).
Proof.
  intros H. induction l as [| x l IH]; cbn [for_each].
  - apply agrees_refl.
  - apply agrees_bind; [apply H | intros _; exact IH].
Qed.

Lemma within_after_silent {A B : Type} (c : io A) (k : A -> io B)
    (names : list string) :
  saves_nothing c -> names <> [] ->
  (forall a, snd c = Ok a -> saves_within (k a) names) ->
  saves_within (x <~ c ;; k x) names.
Proof.
  destruct c as [t [a | x]]; unfold saves_nothing; cbn [fst snd];
    intros Ht Hnames H.
  - specialize (H a eq_refl). unfold saves_within, io_bind in *.
    destruct (k a) as [t' [b | e]]; cbn [fst snd] in *;
      rewrite files_saved_app, Ht; exact H.
  - unfold saves_within. cbn [io_bind fst snd]. exists names.
    rewrite Ht. now split.
Qed.

Lemma within_request_save (folium : event -> result unit) (file : string) :
  saves_within (request folium (Save file)) [file].
Proof.
  unfold saves_within, request.
  destruct (folium (Save file)) as [[] | x]; cbn [fst snd].
  - reflexivity.
  - exists [file]. now split.
Qed.

Section PresentationProperties.

Variable np_mean : list float -> float.
Variable format_1f : float -> string.
Variable in_set : list (LatLon * LatLon) -> LatLon * LatLon -> bool.
Variable folium : event -> result unit.
Variable py_sum : list float -> float.

Ltac agree :=
  repeat (cbv beta;
          lazymatch goal with
          | |- agrees _ (io_bind _ _) (io_bind _ _) =>
              apply agrees_bind; [| intro]
          | |- agrees _ (request _ _) (request _ _) =>
              apply agrees_request; reflexivity
          | |- agrees _ (for_each _ _) (for_each _ _) =>
              apply agrees_for_each; intro
          | |- agrees _ (let '(_, _) := ?x in _) _ => destruct x
          | |- agrees _ _ _ => apply agrees_refl
          end).



Lemma draw_pair_saves_nothing (filtered_pairs : list (LatLon * LatLon))
    (pair : LatLon * LatLon) :
  saves_nothing (draw_pair in_set folium filtered_pairs pair).
Proof.
  destruct pair as [origin dest]. unfold draw_pair.
  repeat (apply saves_nothing_bind; [| intros _]);
    apply saves_nothing_request; reflexivity.
Qed.

Lemma percent_returns (a b : Z) :
  b <> 0%Z -> exists text, percent format_1f a b = Ok text.
Proof.
  intros Hb. unfold percent. rewrite truediv_returns by assumption.
  eexists. reflexivity.
Qed.


Lemma legend_html_no_pairs (filtered_pairs : list (LatLon * LatLon))
    (angle : float) :
  legend_html format_1f [] filtered_pairs angle = Raise ZeroDivisionError.
Proof.
  reflexivity.
Qed.



Lemma visualize_raises_accepted (route : list LatLon)
    (all_pairs filtered_pairs : list (LatLon * LatLon))
    (bbox_corners : list LatLon) (angle : float) (output_file : string) :
  ((List.length bbox_corners < 4)%nat ->
   exists t,
     visualize_route_with_oriented_bbox np_mean format_1f in_set accept_all
       route all_pairs filtered_pairs bbox_corners angle output_file
     = (t, Raise IndexError)
     /\ List.length t = 1%nat)
  /\ ((4 <= List.length bbox_corners)%nat ->
      exists t,
        visualize_route_with_oriented_bbox np_mean format_1f in_set
          accept_all route [] filtered_pairs bbox_corners angle output_file
        = (t, Raise ZeroDivisionError)
        /\ List.length t = 3%nat).
Proof.
  split.
  - intros Hlen. unfold visualize_route_with_oriented_bbox.
    rewrite comprehension_missing_corner by assumption.
    eexists. split; reflexivity.
  - intros Hlen.
    destruct (comprehension_four_corners _ Hlen)
      as (c0 & c1 & c2 & c3 & rest & Hbbox & Hcoords).
    unfold visualize_route_with_oriented_bbox.
    rewrite Hcoords, legend_html_no_pairs.
    eexists. split; reflexivity.
Qed.

Lemma visualize_agrees (route : list LatLon)
    (all_pairs filtered_pairs : list (LatLon * LatLon))
    (bbox_corners : list LatLon) (angle : float) (output_file : string) :
  agrees folium
    (visualize_route_with_oriented_bbox np_mean format_1f in_set folium
       route all_pairs filtered_pairs bbox_corners angle output_file)
    (visualize_route_with_oriented_bbox np_mean format_1f in_set accept_all
       route all_pairs filtered_pairs bbox_corners angle output_file).
Proof.
  unfold visualize_route_with_oriented_bbox. agree.
  unfold draw_pair. agree.
Qed.

Ltac answer :=
  match goal with
  | |- context [folium ?e] => destruct (folium e) as [[] | ?]
  end;
  cbn [io_bind lift emit for_each io_ret app].

Ltac raised_quietly :=
  eexists; eexists; split; [reflexivity |];
  split; [reflexivity |];
  intros text H; cbn [In] in H; intuition discriminate.

(** Whatever folium answers, a call with fewer than four corners, or
    with four corners and no pairs, raises without a file saved or a
    line printed. *)
Lemma visualize_raises_quietly (route : list LatLon)
    (all_pairs filtered_pairs : list (LatLon * LatLon))
    (bbox_corners : list LatLon) (angle : float) (output_file : string) :
  ((List.length bbox_corners < 4)%nat ->
   exists t x,
     visualize_route_with_oriented_bbox np_mean format_1f in_set folium
       route all_pairs filtered_pairs bbox_corners angle output_file
     = (t, Raise x)
     /\ files_saved t = []
     /\ forall text, ~ In (Print text) t)
  /\ ((4 <= List.length bbox_corners)%nat ->
      exists t x,
        visualize_route_with_oriented_bbox np_mean format_1f in_set folium
          route [] filtered_pairs bbox_corners angle output_file
        = (t, Raise x)
        /\ files_saved t = []
        /\ forall text, ~ In (Print text) t).
Proof.
  split.
  - intros Hlen. unfold visualize_route_with_oriented_bbox.
    rewrite comprehension_missing_corner by assumption.
    unfold request. answer; raised_quietly.
  - intros Hlen.
    destruct (comprehension_four_corners _ Hlen)
      as (c0 & c1 & c2 & c3 & rest & Hbbox & Hcoords).
    unfold visualize_route_with_oriented_bbox.
    rewrite Hcoords, legend_html_no_pairs.
    cbn [lift io_bind getitem nth_error list_append app for_each io_ret].
    unfold request.
    answer; [| raised_quietly].
    answer; [| raised_quietly].
    answer; raised_quietly.
Qed.

(** A call never saves anything but [output_file], and saves it exactly
    when it returns. *)
Lemma visualize_within (route : list LatLon)
    (all_pairs filtered_pairs : list (LatLon * LatLon))
    (bbox_corners : list LatLon) (angle : float) (output_file : string) :
  saves_within
    (visualize_route_with_oriented_bbox np_mean format_1f in_set folium
       route all_pairs filtered_pairs bbox_corners angle output_file)
    [output_file].
Proof.
  unfold visualize_route_with_oriented_bbox.
  apply within_after_silent;
    [apply saves_nothing_request; reflexivity | discriminate | intros _ _].
  apply within_after_lift; [discriminate | intros coords _].
  apply within_after_lift; [discriminate | intros first _].
  apply within_after_silent;
    [apply saves_nothing_request; reflexivity | discriminate | intros _ _].
  apply within_after_silent;
    [apply saves_nothing_request; reflexivity | discriminate | intros _ _].
  apply within_after_silent;
    [apply saves_nothing_for_each; intros pair;
     apply draw_pair_saves_nothing
    | discriminate | intros _ _].
  apply within_after_lift; [discriminate | intros html Hhtml].
  assert (Hpairs : all_pairs <> []).
  { intros ->. rewrite legend_html_no_pairs in Hhtml. discriminate. }
  assert (Hlen : len all_pairs <> 0%Z).
  { unfold len. destruct all_pairs; [congruence | cbn [List.length]; lia]. }
  destruct (percent_returns (len filtered_pairs) _ Hlen) as [p1 Hp1].
  destruct (percent_returns (len all_pairs - len filtered_pairs) _ Hlen)
    as [p2 Hp2].
  apply within_after_silent;
    [apply saves_nothing_request; reflexivity | discriminate | intros _ _].
  eapply within_then_quiet; [apply within_request_save |].
  intros _. exists tt. rewrite Hp1, Hp2.
  exists [ Print (nl ++ "Visualization saved to " ++ output_file)%string;
           Print ("  - Route with " ++ str_of_nat (List.length route)
                  ++ " points")%string;
           Print ("  - Oriented box angle: " ++ format_1f angle
                  ++ "° from east")%string;
           Print ("  - Total pairs: "
                  ++ str_of_nat (List.length all_pairs))%string;
           Print ("  - Pairs kept: "
                  ++ str_of_nat (List.length filtered_pairs)
                  ++ " (" ++ p1 ++ "%)")%string;
           Print ("  - Pairs filtered: "
                  ++ str_of_Z (len all_pairs - len filtered_pairs)
                  ++ " (" ++ p2 ++ "%)")%string ].
  split; reflexivity.
Qed.

(** With fewer than four corners, or with four corners and no pairs,
    the call raises before a file is saved or a line printed, whatever
    folium answers.  When folium accepts the requests, the exception is
    [IndexError], right after the map is created, in the first case, and
    [ZeroDivisionError] (the percentage of the legend), once the box and
    the route are drawn, in the second. *)
Theorem visualize_raises_before_saving :
  forall (route : list LatLon)
         (all_pairs filtered_pairs : list (LatLon * LatLon))
         (bbox_corners : list LatLon) (angle : float) (output_file : string),
    ((List.length bbox_corners < 4)%nat ->
     exists t x,
       visualize_route_with_oriented_bbox np_mean format_1f in_set folium
         route all_pairs filtered_pairs bbox_corners angle output_file
       = (t, Raise x)
       /\ files_saved t = []
       /\ (forall text, ~ In (Print text) t)
       /\ (accepted folium
             (visualize_route_with_oriented_bbox np_mean format_1f in_set
                accept_all route all_pairs filtered_pairs bbox_corners angle
                output_file) ->
           x = IndexError /\ List.length t = 1%nat))
    /\ ((4 <= List.length bbox_corners)%nat ->
        exists t x,
          visualize_route_with_oriented_bbox np_mean format_1f in_set folium
            route [] filtered_pairs bbox_corners angle output_file
          = (t, Raise x)
          /\ files_saved t = []
          /\ (forall text, ~ In (Print text) t)
          /\ (accepted folium
                (visualize_route_with_oriented_bbox np_mean format_1f in_set
                   accept_all route [] filtered_pairs bbox_corners angle
                   output_file) ->
              x = ZeroDivisionError /\ List.length t = 3%nat)).
Proof.
  intros route all_pairs filtered_pairs bbox_corners angle output_file.
  split; intros Hlen.
  - destruct (proj1 (visualize_raises_quietly route all_pairs filtered_pairs
                       bbox_corners angle output_file) Hlen)
      as (t & x & E & Hsaved & Hprinted).
    exists t, x. split; [exact E | split; [exact Hsaved | split]];
      [exact Hprinted |].
    intros Hacc.
    destruct (proj1 (visualize_raises_accepted route all_pairs
                       filtered_pairs bbox_corners angle output_file) Hlen)
      as (t' & E' & Ht').
    rewrite (visualize_agrees _ _ _ _ _ _ Hacc), E' in E.
    injection E as <- <-. now split.
  - destruct (proj2 (visualize_raises_quietly route all_pairs filtered_pairs
                       bbox_corners angle output_file) Hlen)
      as (t & x & E & Hsaved & Hprinted).
    exists t, x. split; [exact E | split; [exact Hsaved | split]];
      [exact Hprinted |].
    intros Hacc.
    destruct (proj2 (visualize_raises_accepted route all_pairs
                       filtered_pairs bbox_corners angle output_file) Hlen)
      as (t' & E' & Ht').
    rewrite (visualize_agrees _ _ _ _ _ _ Hacc), E' in E.
    injection E as <- <-. now split.
Qed.


(** *** The route summary *)

Lemma sum_of_lengths {A : Type} (l : list (list A)) (acc : list A) :
  fold_left Nat.add (map (fun x => List.length x) l) (List.length acc)
  = List.length (fold_left (fun all x => (all ++ x)%list) l acc).
Proof.
  revert acc. induction l as [| x l IH]; intros acc; [reflexivity |].
  cbn [map fold_left]. rewrite <- IH, length_app. reflexivity.
Qed.

Lemma total_of_lengths {A : Type} (l : list (list A)) :
  fold_left Nat.add (map (fun x => List.length x) l) 0%nat
  = List.length (fold_left (fun all x => (all ++ x)%list) l []).
Proof.
  exact (sum_of_lengths l []).
Qed.

Lemma nth_error_last_but_one {A : Type} (a b c d e x y : A)
    (l1 l2 : list A) :
  nth_error (a :: b :: c :: d :: l1 ++ e :: l2 ++ [x; y])
    (5 + List.length l1 + List.length l2)
  = Some x.
Proof.
  change (a :: b :: c :: d :: l1 ++ e :: l2 ++ [x; y])
    with (([a; b; c; d] ++ l1) ++ ([e] ++ l2) ++ [x; y])%list.
  rewrite nth_error_app2 by (rewrite length_app; cbn [List.length]; lia).
  rewrite nth_error_app2
    by (rewrite !length_app; cbn [List.length]; lia).
  rewrite !length_app. cbn [List.length].
  replace (5 + List.length l1 + List.length l2 - (4 + List.length l1)
           - (1 + List.length l2))%nat with 0%nat by lia.
  reflexivity.
Qed.

Lemma for_each_prints {V : Type} (d : dict V) (line : string -> V -> string) :
  for_each d (fun '(name, v) => emit (Print (line name v)))
  = (map (fun '(name, v) => Print (line name v)) d, Ok tt).
Proof.
  induction d as [| [name v] d IH]; [reflexivity |].
  cbn [for_each map]. rewrite IH. reflexivity.
Qed.

Lemma densify_tables_built : exists routes, base_highway_routes = Ok routes.
Proof.
  eexists. vm_compute. reflexivity.
Qed.

Definition route_line (entry : string * list LatLon) : event :=
  let '(name, route) := entry in
  Print ("  - " ++ name ++ ": " ++ str_of_nat (List.length route)
         ++ " points")%string.

Definition table_line (entry : string * list (LatLon * LatLon)) : event :=
  let '(name, pairs) := entry in
  Print ("  - " ++ name ++ ": " ++ str_of_nat (List.length pairs)
         ++ " delivery routes")%string.

Definition total_line (tables : dict (list (LatLon * LatLon))) : event :=
  Print (nl ++ "Total delivery routes: "
         ++ str_of_nat
              (List.length
                 (fold_left (fun all_pairs pairs => (all_pairs ++ pairs)%list)
                    (values tables) [])))%string.

Lemma print_route_summary_trace (routes : dict (list LatLon))
    (tables : dict (list (LatLon * LatLon))) :
  print_route_summary_with routes tables
  = (Print (string_times "=" 70)
       :: Print "ROUTE DATA SUMMARY"
       :: Print (string_times "=" 70)
       :: Print (nl ++ "Base Highway Routes:")%string
       :: map route_line routes
       ++ Print (nl ++ "Delivery Route Pairs:")%string
       :: map table_line tables
       ++ [ total_line tables; Print (string_times "=" 70) ],
     Ok tt).
Proof.
  unfold print_route_summary_with.
  rewrite (for_each_prints routes
             (fun name route =>
                ("  - " ++ name ++ ": "
                 ++ str_of_nat (List.length route) ++ " points")%string)),
    (for_each_prints tables
       (fun name pairs =>
          ("  - " ++ name ++ ": "
           ++ str_of_nat (List.length pairs)
           ++ " delivery routes")%string)).
  rewrite (total_of_lengths (values tables)).
  reflexivity.
Qed.

(** [print_route_summary] never raises; it prints seven lines and one
    per route and per table, and the total of its last line but one is
    the length of what [get_all_delivery_pairs] builds from the same
    tables. *)
Theorem print_route_summary_total :
  (forall (routes : dict (list LatLon))
          (tables : dict (list (LatLon * LatLon))),
      exists t,
        print_route_summary_with routes tables = (t, Ok tt)
        /\ List.length t = (7 + List.length routes + List.length tables)%nat
        /\ nth_error t (5 + List.length routes + List.length tables)
           = Some (Print
                     (nl ++ "Total delivery routes: "
                      ++ str_of_nat
                           (List.length
                              (fold_left
                                 (fun all_pairs pairs =>
                                    (all_pairs ++ pairs)%list)
                                 (values tables) [])))%string))
  /\ (exists t,
        print_route_summary = (t, Ok tt)
        /\ In (Print
                 (nl ++ "Total delivery routes: "
                  ++ str_of_nat (List.length get_all_delivery_pairs))%string)
             t).
Proof.
  assert (Hgeneral :
    forall (routes : dict (list LatLon))
           (tables : dict (list (LatLon * LatLon))),
      exists t,
        print_route_summary_with routes tables = (t, Ok tt)
        /\ List.length t = (7 + List.length routes + List.length tables)%nat
        /\ nth_error t (5 + List.length routes + List.length tables)
           = Some (total_line tables)).
  { intros routes tables. rewrite print_route_summary_trace.
    eexists. split; [reflexivity |]. split.
    - cbn [List.length]. rewrite length_app, length_map. cbn [List.length].
      rewrite length_app, length_map. cbn [List.length]. lia.
    - rewrite <- (length_map route_line routes) at 1.
      rewrite <- (length_map table_line tables) at 1.
      apply nth_error_last_but_one. }
  split; [exact Hgeneral |].
  destruct (densify_tables_built) as [routes Hroutes].
  destruct (Hgeneral routes delivery_route_pairs) as (t & E & _ & Hnth).
  exists t. unfold print_route_summary. rewrite Hroutes.
  cbn [lift io_bind app]. rewrite E. split; [reflexivity |].
  apply nth_error_In in Hnth. exact Hnth.
Qed.

(** *** [make_folium_map] *)













End PresentationProperties.

(** ** The examples *)

(** What every example looks up. *)
Lemma example_lookups :
  exists routes,
    base_highway_routes = Ok routes
    /\ forall key, In key route_names ->
         exists route pairs,
           dict_getitem routes key = Ok route
           /\ get_delivery_pairs_for_route key = Ok pairs
           /\ pairs <> [].
Proof.
  eexists. split; [vm_compute; reflexivity |].
  intros key [<- | [<- | [<- | [<- | []]]]];
    eexists; eexists; (split; [vm_compute; reflexivity |]);
    (split; [vm_compute; reflexivity | discriminate]).
Qed.

Lemma all_deliveries_nonempty : get_all_delivery_pairs <> [].
Proof.
  vm_compute. discriminate.
Qed.

(** The names of the maps, in the order [run_all_examples] saves them. *)
Definition example_maps : list string :=
  [ "example1_us101_deliveries.html"; "example2_i280_deliveries.html";
    "example3_sf_to_sj_us101.html"; "example3_sf_to_sj_i280.html";
    "example3_oakland_to_sj_i880.html"; "example3_sf_to_sac_i80.html";
    "example4_all_bay_area_deliveries.html" ]%string.

Section ExampleProperties.

Variable np_mean : list float -> float.
Variable format_1f : float -> string.
Variable in_set : list (LatLon * LatLon) -> LatLon * LatLon -> bool.
Variable folium : event -> result unit.
Variable compute : list LatLon -> list (LatLon * LatLon) -> Z -> string ->
                   result (list LatLon * float).
Variable keep : list (LatLon * LatLon) -> list LatLon -> bool ->
                result (list (LatLon * LatLon)).


Lemma runs_bind_quiet {A B : Type} (c : io A) (k : A -> io B) (a : A)
    (b : B) :
  runs c a [] -> runs (k a) b [] -> runs (x <~ c ;; k x) b [].
Proof.
  intros H1 H2. now apply (runs_bind c k a b [] [] []).
Qed.

Lemma within_then_eq {A B : Type} (c : io A) (k : A -> io B)
    (names1 names2 names : list string) :
  saves_within c names1 -> (forall a, saves_within (k a) names2) ->
  names = (names1 ++ names2)%list ->
  saves_within (x <~ c ;; k x) names.
Proof.
  intros H1 H2 ->. now apply within_then.
Qed.

Ltac quiet_step :=
  lazymatch goal with
  | |- saves_within (io_bind (emit (Print _)) _) _ =>
      eapply within_after_quiet; [apply runs_print | cbv beta]
  | |- saves_within (io_bind (lift _) _) _ =>
      eapply within_after_quiet;
      [apply runs_lift; eassumption | cbv beta]
  end.

Ltac quiet_tail :=
  repeat (eapply runs_bind_quiet; [apply runs_print | cbv beta]);
  first [apply runs_print | apply runs_ret].

Ltac core_calls :=
  apply within_after_lift; [discriminate | intros [? ?] _];
  apply within_after_lift; [discriminate | intros ? _].

Ltac finish_with_map :=
  eapply within_then_quiet;
  [apply visualize_within | intros ?; eexists; quiet_tail].

Lemma example_1_within :
  saves_within
    (example_1_basic_workflow np_mean format_1f in_set folium compute keep)
    ["example1_us101_deliveries.html"%string].
Proof.
  destruct example_lookups as (routes & Hroutes & Hkeys).
  destruct (Hkeys "sf_to_sj_us101"%string) as (route & pairs & Hr & Hp & _);
    [cbn; tauto |].
  unfold example_1_basic_workflow.
  repeat quiet_step. core_calls. repeat quiet_step. finish_with_map.
Qed.

Lemma example_2_within :
  saves_within
    (example_2_i280_deliveries np_mean format_1f in_set folium compute keep)
    ["example2_i280_deliveries.html"%string].
Proof.
  destruct example_lookups as (routes & Hroutes & Hkeys).
  destruct (Hkeys "sf_to_sj_i280"%string) as (route & pairs & Hr & Hp & _);
    [cbn; tauto |].
  unfold example_2_i280_deliveries.
  repeat quiet_step. core_calls. repeat quiet_step. finish_with_map.
Qed.

Lemma example_3_round_within (route_key route_name : string) (min_pairs : Z) :
  In route_key route_names ->
  saves_within
    (example_3_round np_mean format_1f in_set folium compute keep
       (route_key, route_name, min_pairs))
    [("example3_" ++ route_key ++ ".html")%string].
Proof.
  intros Hin.
  destruct example_lookups as (routes & Hroutes & Hkeys).
  destruct (Hkeys route_key Hin) as (route & pairs & Hr & Hp & _).
  unfold example_3_round.
  repeat quiet_step. core_calls. repeat quiet_step.
  apply visualize_within.
Qed.

Lemma example_3_within :
  saves_within
    (example_3_all_routes np_mean format_1f in_set folium compute keep)
    [ "example3_sf_to_sj_us101.html"; "example3_sf_to_sj_i280.html";
      "example3_oakland_to_sj_i880.html"; "example3_sf_to_sac_i80.html"
    ]%string.
Proof.
  unfold example_3_all_routes. repeat quiet_step.
  eapply within_then_quiet; [| intros ?; eexists; quiet_tail].
  cbn [for_each routes_to_test].
  eapply within_then_eq;
    [apply example_3_round_within; cbn; tauto | intros _ | reflexivity].
  eapply within_then_eq;
    [apply example_3_round_within; cbn; tauto | intros _ | reflexivity].
  eapply within_then_eq;
    [apply example_3_round_within; cbn; tauto | intros _ | reflexivity].
  eapply within_then_quiet;
    [apply example_3_round_within; cbn; tauto
    | intros ?; eexists; apply runs_ret].
Qed.

Lemma example_4_within :
  saves_within
    (example_4_combined_deliveries np_mean format_1f in_set folium compute keep)
    ["example4_all_bay_area_deliveries.html"%string].
Proof.
  destruct example_lookups as (routes & Hroutes & Hkeys).
  destruct (Hkeys "sf_to_sj_us101"%string) as (route & p1 & Hr & Hp1 & _);
    [cbn; tauto |].
  destruct (Hkeys "sf_to_sj_i280"%string) as (? & p2 & _ & Hp2 & _);
    [cbn; tauto |].
  destruct (Hkeys "oakland_to_sj_i880"%string) as (? & p3 & _ & Hp3 & _);
    [cbn; tauto |].
  destruct (Hkeys "sf_to_sac_i80"%string) as (? & p4 & _ & Hp4 & _);
    [cbn; tauto |].
  unfold example_4_combined_deliveries. repeat quiet_step.
  eapply within_after_quiet.
  { apply runs_for_each_quiet.
    intros route_name [<- | [<- | [<- | [<- | []]]]];
      (eapply runs_bind_quiet;
       [apply runs_lift; eassumption | apply runs_print]). }
  cbv beta. repeat quiet_step. core_calls. repeat quiet_step.
  finish_with_map.
Qed.

(** Whatever the two injected functions do, [run_all_examples] saves
    maps only under the seven names of [example_maps], each at most once
    and in that order: all seven when it returns, and a proper initial
    part of them when a call raises. *)
Theorem run_all_examples_maps :
  saves_within (run_all_examples np_mean format_1f in_set folium compute keep)
    example_maps
  /\ NoDup example_maps.
Proof.
  split.
  - unfold run_all_examples. repeat quiet_step.
    eapply within_then_eq;
      [apply example_1_within | intros _ | reflexivity].
    eapply within_then_eq;
      [apply example_2_within | intros _ | reflexivity].
    eapply within_then_eq;
      [apply example_3_within | intros _ | reflexivity].
    eapply within_then_quiet;
      [apply example_4_within | intros ?; eexists; quiet_tail].
  - unfold example_maps.
    repeat (constructor; [cbn; intuition discriminate |]). constructor.
Qed.















End ExampleProperties.

(** *** The examples with a library that refuses requests *)



(** A library that refuses a map centred on NaN and a line without
    points, and accepts everything else. *)
Definition has_nan (location : float * float) : bool :=
  is_nan (fst location) || is_nan (snd location).

Definition refusing_folium (e : event) : result unit :=
  match e with
  | FoliumMap location _ =>
      if has_nan location
      then Raise (ValueError "Location values cannot contain NaNs.")
      else Ok tt
  | FoliumPolyLine [] _ _ _ _ _ => Raise (ValueError "Locations is empty.")
  | _ => Ok tt
  end.

(** A mean that is NaN on the empty list. *)
Definition first_or_nan (l : list float) : float :=
  match l with
  | [] => nan
  | x :: _ => x
  end.


(** With such a library an empty route ends the call in the library's
    [ValueError], before the corners are read. *)
Example visualize_empty_route :
  visualize_route_with_oriented_bbox first_or_nan (fun _ => "0.0"%string)
    (fun _ _ => true) refusing_folium [] us101_delivery_routes
    us101_delivery_routes [] 0%float "map.html"%string
  = ([], Raise (ValueError "Location values cannot contain NaNs.")).
Proof.
  reflexivity.
Qed.



(** * Properties of the corridor core *)

Inductive subsequence {A : Type} : list A -> list A -> Prop :=
| subsequence_nil : subsequence [] []
| subsequence_skip (x : A) (l1 l2 : list A) :
    subsequence l1 l2 -> subsequence l1 (x :: l2)
| subsequence_keep (x : A) (l1 l2 : list A) :
    subsequence l1 l2 -> subsequence (x :: l1) (x :: l2).

Lemma filter_subsequence {A : Type} (keep : A -> bool) (l : list A) :
  subsequence (filter keep l) l.
Proof.
  induction l as [| x l IH]; cbn [filter].
  - constructor.
  - destruct (keep x); now constructor.
Qed.

Lemma filter_none {A : Type} (keep : A -> bool) (l : list A) :
  (forall x, In x l -> keep x = false) -> filter keep l = [].
Proof.
  induction l as [| x l IH]; intros H; [reflexivity |].
  cbn [filter]. rewrite (H x (or_introl eq_refl)).
  apply IH. intros y Hy. apply H. now right.
Qed.

Lemma filter_length_perm {A : Type} (keep : A -> bool) (l l' : list A) :
  Permutation l l' ->
  List.length (filter keep l) = List.length (filter keep l').
Proof.
  induction 1 as [| x l l' _ IH | x y l | l l' l'' _ IH1 _ IH2];
    cbn [filter].
  - reflexivity.
  - destruct (keep x); cbn [List.length]; now rewrite IH.
  - destruct (keep x), (keep y); reflexivity.
  - now rewrite IH1.
Qed.

Lemma filter_length_map {A B : Type} (f : A -> B) (keep : B -> bool)
    (l : list A) :
  List.length (filter keep (map f l))
  = List.length (filter (fun x => keep (f x)) l).
Proof.
  induction l as [| x l IH]; [reflexivity |].
  cbn [map filter]. destruct (keep (f x)); cbn [List.length]; now rewrite IH.
Qed.


Section Ranking.

Context {F : Type} {SF : Scalar F}.

Definition ascending (x y : F) : Prop := leb x y = true.

Definition count_le (h : F) (l : list F) : nat :=
  List.length (filter (fun x => leb x h) l).


Lemma leb_false_flip (x y : F) : leb x y = false -> leb y x = true.
Proof.
  intros H. destruct (leb_total x y) as [E | E]; [congruence | exact E].
Qed.

(** A pair is within a half-extent exactly when its governing maximum
    is. *)
Lemma leb_fmax (a b h : F) : leb (fmax a b) h = leb a h && leb b h.
Proof.
  unfold fmax. destruct (leb a b) eqn:Eab.
  - destruct (leb b h) eqn:Ebh.
    + now rewrite (leb_trans a b h Eab Ebh).
    + now rewrite andb_false_r.
  - apply leb_false_flip in Eab. destruct (leb a h) eqn:Eah.
    + now rewrite (leb_trans b a h Eab Eah).
    + reflexivity.
Qed.

Lemma insert_sorted_perm (x : F) (l : list F) :
  Permutation (insert_sorted x l) (x :: l).
Proof.
  induction l as [| y l IH]; cbn [insert_sorted]; [reflexivity |].
  destruct (leb x y); [reflexivity |].
  rewrite IH. apply perm_swap.
Qed.

Lemma sort_ascending_perm (l : list F) : Permutation (sort_ascending l) l.
Proof.
  induction l as [| x l IH]; [reflexivity |].
  cbn [sort_ascending fold_right]. fold (sort_ascending l).
  rewrite insert_sorted_perm. now constructor.
Qed.

Lemma insert_sorted_sorted (x : F) (l : list F) :
  StronglySorted ascending l -> StronglySorted ascending (insert_sorted x l).
Proof.
  induction 1 as [| y l Hsorted IH Hall]; cbn [insert_sorted].
  - repeat constructor.
  - destruct (leb x y) eqn:Exy.
    + constructor; [now constructor |].
      constructor; [exact Exy |].
      eapply Forall_impl; [| exact Hall].
      intros z Hz. exact (leb_trans x y z Exy Hz).
    + constructor; [exact IH |].
      eapply Permutation_Forall;
        [symmetry; apply insert_sorted_perm |].
      constructor; [now apply leb_false_flip | exact Hall].
Qed.

Lemma sort_ascending_sorted (l : list F) : StronglySorted ascending (sort_ascending l).
Proof.
  induction l as [| x l IH]; [constructor |].
  cbn [sort_ascending fold_right]. now apply insert_sorted_sorted.
Qed.


(** ... and below any smaller bound there are at most [i] elements. *)
Lemma rank_upper (s : list F) (i : nat) (c h : F) :
  StronglySorted ascending s -> nth_error s i = Some c -> leb c h = false ->
  (count_le h s <= i)%nat.
Proof.
  intros Hs. revert i. unfold count_le.
  induction Hs as [| x s Hs IH Hall]; intros i Hi Hch.
  - destruct i; discriminate.
  - cbn [filter]. destruct i as [| i]; cbn [nth_error] in Hi.
    + injection Hi as ->.
      rewrite Hch.
      assert (Hnone : filter (fun y => leb y h) s = []).
      { apply filter_none.
        intros y Hy. rewrite Forall_forall in Hall. specialize (Hall y Hy).
        destruct (leb y h) eqn:Eyh; [| reflexivity].
        rewrite (leb_trans c y h Hall Eyh) in Hch. discriminate. }
      rewrite Hnone. reflexivity.
    + specialize (IH i Hi Hch).
      destruct (leb x h); cbn [List.length]; lia.
Qed.

Lemma count_within_cross_maxima (h : F) (pair_uv : list ((F * F) * (F * F))) :
  count_within_cross h pair_uv = count_le h (map governing_maximum pair_uv).
Proof.
  unfold count_within_cross, count_le. rewrite filter_length_map.
  f_equal. apply filter_ext. intros uv. unfold governing_maximum.
  now rewrite leb_fmax.
Qed.

End Ranking.

Section CorridorProperties.

Context {F : Type} {SF : Scalar F} {Angle : Type} {FR : Frame F Angle}.
Context {CR : CornerReader F Angle}.

(** A path the validation and the estimator accept. *)
Definition usable_path (path : Path) (pairs : list Pair) : Prop :=
  (2 <= List.length path)%nat
  /\ forallb coordinate_finite path = true
  /\ forallb (fun pr => coordinate_finite (fst pr)
                        && coordinate_finite (snd pr)) pairs = true
  /\ all_coincide path = false.

(** The projected pairs in the frame of a rectangle, and their governing
    maxima. *)
Definition projected_pairs (r : OrientedRectangle F Angle) (pairs : list Pair)
  : list ((F * F) * (F * F)) :=
  map (project_pair (angle r) (center r)) pairs.

Definition pair_maxima (r : OrientedRectangle F Angle) (pairs : list Pair)
  : list F :=
  map governing_maximum (projected_pairs r pairs).

Lemma compute_oriented_corridor_inv (path : Path) (pairs : list Pair)
    (min_pairs : Z) (method : Method) (r : OrientedRectangle F Angle) :
  compute_oriented_corridor path pairs min_pairs method = Ok r ->
  usable_path path pairs
  /\ (0 < min_pairs)%Z
  /\ angle r = heading path
  /\ center r = midpoint path
  /\ size_corridor (map (project (angle r) (center r)) path)
       (projected_pairs r pairs) min_pairs method
     = Ok (along_extent r, cross_extent r).
Proof.
  unfold compute_oriented_corridor, estimate_orientation, usable_path.
  destruct (Z.ltb_spec (Z.of_nat (List.length pairs)) min_pairs)
    as [| _]; [discriminate |].
  destruct (Nat.ltb_spec (List.length path) 2) as [| Hlen]; [discriminate |].
  destruct (forallb coordinate_finite path) eqn:Hfp;
    [| cbn [andb negb]; discriminate].
  match goal with
  | |- context [forallb ?f pairs] => destruct (forallb f pairs) eqn:Hfq
  end; [| cbn [andb negb]; discriminate].
  cbn [andb negb].
  destruct (Z.leb_spec min_pairs 0) as [| Hk]; [discriminate |].
  destruct (all_coincide path) eqn:Hdeg; [discriminate |].
  cbn [bind].
  destruct (size_corridor _ _ min_pairs method) as [[a c] |] eqn:Hsize;
    [| discriminate].
  cbn [bind fst snd]. intros E. injection E as <-.
  cbn [angle center along_extent cross_extent]. unfold projected_pairs.
  cbn [angle center]. repeat split; assumption.
Qed.

Lemma size_corridor_percentile_inv (path_uv : list (F * F))
    (pair_uv : list ((F * F) * (F * F))) (min_pairs : Z) (a c : F) :
  size_corridor path_uv pair_uv min_pairs Percentile = Ok (a, c) ->
  (min_pairs <= Z.of_nat (List.length pair_uv))%Z
  /\ nth_error (sort_ascending (map governing_maximum pair_uv))
       (Z.to_nat min_pairs - 1) = Some c.
Proof.
  unfold size_corridor.
  destruct (Z.ltb_spec (Z.of_nat (List.length pair_uv)) min_pairs)
    as [| Hk]; [discriminate |].
  destruct (nth_error _ _) as [c' |] eqn:Hnth; [| discriminate].
  intros E. injection E as _ <-. split; [exact Hk | reflexivity].
Qed.






(** C2: whenever the percentile method returns a rectangle,
    [1 <= min_pairs <= len(pairs)], its cross-axis half-extent is the
    element of rank [min_pairs] in the ascending arrangement of the
    per-pair maxima [max(|v_origin|, |v_destination|)], and for every
    smaller half-extent fewer than [min_pairs] pairs have both endpoints
    within it. *)
Theorem percentile_cross_extent_minimal :
  forall (path : Path) (pairs : list Pair) (min_pairs : Z)
         (r : OrientedRectangle F Angle),
    compute_oriented_corridor path pairs min_pairs Percentile = Ok r ->
    (1 <= min_pairs <= Z.of_nat (List.length pairs))%Z
    /\ (exists sorted,
          Permutation sorted (pair_maxima r pairs)
          /\ StronglySorted ascending sorted
          /\ nth_error sorted (Z.to_nat min_pairs - 1)
             = Some (cross_extent r))
    /\ (forall h, leb (cross_extent r) h = false ->
          (count_within_cross h (projected_pairs r pairs)
           < Z.to_nat min_pairs)%nat).
Proof.
  intros path pairs min_pairs r Hr.
  apply compute_oriented_corridor_inv in Hr.
  destruct Hr as (_ & Hk & _ & _ & Hsize).
  apply size_corridor_percentile_inv in Hsize. destruct Hsize as [Hle Hnth].
  unfold projected_pairs in Hle. rewrite length_map in Hle.
  split; [lia | split].
  - exists (sort_ascending (pair_maxima r pairs)).
    split; [apply sort_ascending_perm | split].
    + apply sort_ascending_sorted.
    + exact Hnth.
  - intros h Hh. rewrite count_within_cross_maxima.
    pose proof (rank_upper _ _ _ h (sort_ascending_sorted _) Hnth Hh)
      as Hrank.
    unfold count_le in *.
    rewrite (filter_length_perm _ _ _ (sort_ascending_perm _)) in Hrank.
    lia.
Qed.

(** C3: with [min_pairs] above the number of pairs supplied,
    [compute_oriented_corridor] raises [InsufficientPairsError], for every
    path, every pair list and either method; it returns no rectangle. *)
Theorem insufficient_pairs_raises :
  forall (path : Path) (pairs : list Pair) (min_pairs : Z) (method : Method),
    (Z.of_nat (List.length pairs) < min_pairs)%Z ->
    compute_oriented_corridor path pairs min_pairs method
    = Raise InsufficientPairsError.
Proof.
  intros path pairs min_pairs method Hk.
  unfold compute_oriented_corridor.
  destruct (Z.ltb_spec (Z.of_nat (List.length pairs)) min_pairs)
    as [_ |]; [reflexivity | lia].
Qed.

(** The loop of the filter, on a store in which the new list exists: it
    leaves every other list as it is and appends to the new list the
    pairs that pass the test, in the order of the input. *)
Lemma filter_loop (box : Corners) (require_both : bool) (kept_at : address)
    (pairs : list Pair) (st : pair_store) :
  (kept_at < List.length st)%nat ->
  let st' :=
    fold_left
      (fun st' pr =>
         if kept box require_both pr then append_to st' kept_at pr else st')
      pairs st in
  List.length st' = List.length st
  /\ read st' kept_at
     = (read st kept_at ++ filter (kept box require_both) pairs)%list
  /\ forall a, a <> kept_at -> read st' a = read st a.
Proof.
  revert st. induction pairs as [| pr pairs IH]; intros st Hk; cbn zeta.
  - cbn [fold_left filter]. rewrite app_nil_r. repeat split.
  - cbn [fold_left filter]. destruct (kept box require_both pr).
    + assert (Hk' : (kept_at < List.length (append_to st kept_at pr))%nat).
      { unfold append_to. rewrite replace_nth_length. exact Hk. }
      destruct (IH _ Hk') as (Hlen & Hread & Hother).
      split; [| split].
      * rewrite Hlen. unfold append_to. apply replace_nth_length.
      * rewrite Hread. unfold append_to, read.
        rewrite nth_replace_nth_same by exact Hk.
        now rewrite <- app_assoc.
      * intros a Ha. rewrite (Hother a Ha). unfold append_to, read.
        apply nth_replace_nth_other. congruence.
    + exact (IH st Hk).
Qed.

Lemma read_allocated (st : @pair_store F) (a : address) :
  read (fst (allocate st)) a = read st a.
Proof.
  unfold allocate, read. cbn [fst].
  destruct (Nat.lt_ge_cases a (List.length st)) as [Ha | Ha].
  - now rewrite app_nth1.
  - rewrite (nth_overflow st) by exact Ha.
    destruct (Nat.eq_dec a (List.length st)) as [-> | Hne].
    + now rewrite nth_middle.
    + apply nth_overflow. rewrite length_app. cbn [List.length]. lia.
Qed.

(** What a call of the filter on list objects does. *)
Lemma filter_pairs_in_corridor_obj_spec (st : pair_store)
    (pairs_at : address) (box : Corners) (require_both : bool) :
  snd (filter_pairs_in_corridor_obj st pairs_at box require_both)
  = List.length st
  /\ read (fst (filter_pairs_in_corridor_obj st pairs_at box require_both))
       (List.length st)
     = filter_pairs_in_corridor (read st pairs_at) box require_both
  /\ forall a, a <> List.length st ->
       read (fst (filter_pairs_in_corridor_obj st pairs_at box require_both))
         a
       = read st a.
Proof.
  unfold filter_pairs_in_corridor_obj.
  pose proof (filter_loop box require_both (List.length st)
                (read st pairs_at) (fst (allocate st))) as Hloop.
  cbn zeta in Hloop. unfold allocate in *. cbn [fst snd] in *.
  destruct Hloop as (_ & Hread & Hother).
  { rewrite length_app. cbn [List.length]. lia. }
  split; [reflexivity | split].
  - rewrite Hread.
    pose proof (read_allocated st (List.length st)) as Hnew.
    unfold allocate in Hnew. cbn [fst] in Hnew. rewrite Hnew.
    unfold read at 1. rewrite nth_overflow by lia. reflexivity.
  - intros a Ha. rewrite (Hother a Ha).
    exact (read_allocated st a).
Qed.

(** C5: for every input list, every four corners and either value of
    [require_both]: the call returns a new list, which holds the input
    pairs that pass the containment test, each as often as the input has
    it, and is a subsequence of the input in the input's order; every
    list that existed before the call, the input among them, is the same
    after it; and a call on an input list with the same elements, in
    whatever store, returns a list with the same elements. *)
Theorem filter_pairs_in_corridor_subsequence :
  forall (st : pair_store) (pairs_at : address) (box : Corners)
         (require_both : bool),
    let st' := fst (filter_pairs_in_corridor_obj st pairs_at box require_both)
    in
    let out := snd (filter_pairs_in_corridor_obj st pairs_at box require_both)
    in
    out = List.length st
    /\ read st' out
       = filter_pairs_in_corridor (read st pairs_at) box require_both
    /\ subsequence (read st' out) (read st pairs_at)
    /\ (forall pr,
          In pr (read st' out)
          <-> In pr (read st pairs_at) /\ kept box require_both pr = true)
    /\ (forall a, (a < List.length st)%nat -> read st' a = read st a)
    /\ (forall (st2 : pair_store) (pairs_at2 : address),
          read st2 pairs_at2 = read st pairs_at ->
          read
            (fst (filter_pairs_in_corridor_obj st2 pairs_at2 box
                    require_both))
            (snd (filter_pairs_in_corridor_obj st2 pairs_at2 box
                    require_both))
          = read st' out).
Proof.
  intros st pairs_at box require_both st' out. subst st' out.
  destruct (filter_pairs_in_corridor_obj_spec st pairs_at box require_both)
    as (Hout & Hread & Hother).
  rewrite Hout, Hread.
  split; [reflexivity | split; [reflexivity | split; [| split; [| split]]]].
  - apply filter_subsequence.
  - intros pr. unfold filter_pairs_in_corridor. apply filter_In.
  - intros a Ha. apply Hother. lia.
  - intros st2 pairs_at2 Hsame.
    destruct (filter_pairs_in_corridor_obj_spec st2 pairs_at2 box
                require_both) as (Hout2 & Hread2 & _).
    now rewrite Hout2, Hread2, Hsame.
Qed.

End CorridorProperties.

(** ** The core on concrete inputs *)

Import PlanarQ.

(** The scenario of the specification: a path due north from
    [(37, -122)] to [(38, -122)] and five pairs at cross-axis offsets
    0.1, 0.3, 0.5, 0.7 and 0.9 degrees. *)
Definition north_path : list (Q * Q) := [ (37, -122); (38, -122) ]%Q.

Definition offset_pairs : list ((Q * Q) * (Q * Q)) :=
  [ ((37.25, -121.9), (37.75, -122.1));
    ((37.25, -121.7), (37.75, -121.9));
    ((37.25, -121.5), (37.75, -121.9));
    ((37.25, -121.3), (37.75, -121.9));
    ((37.25, -121.1), (37.75, -121.9)) ]%Q.

(** One pair on the path's axis, two degrees beyond its northern end. *)
Definition far_pairs : list ((Q * Q) * (Q * Q)) :=
  [ ((40, -122), (41, -122)) ]%Q.

(** A path whose two points coincide. *)
Definition degenerate_path : list (Q * Q) := [ (37, -122); (37, -122) ]%Q.

(** In exact arithmetic the projector of the rational frame is undone
    by its inverse, for every heading and origin. *)
Lemma project_unproject_Q (d : Direction) (origin p : Q * Q) :
  ~ (fst d * fst d + snd d * snd d == 0)%Q ->
  (fst (unproject_Q d origin (project_Q d origin p)) == fst p)%Q
  /\ (snd (unproject_Q d origin (project_Q d origin p)) == snd p)%Q.
Proof.
  destruct d as [dx dy], origin as [olat olon], p as [lat lon].
  cbn [fst snd unproject_Q project_Q]. intros Hd.
  split; field; exact Hd.
Qed.

(** The rectangle the percentile method returns on the scenario with
    [min_pairs = 3]; its cross-axis half-extent is 0.5. *)
Definition north_corridor : OrientedRectangle Q Direction :=
  Eval vm_compute in
    match compute_oriented_corridor north_path offset_pairs 3 Percentile with
    | Ok r => r
    | Raise _ =>
        {| angle := (0, 0)%Q; center := (0, 0)%Q;
           along_extent := 0%Q; cross_extent := 0%Q |}
    end.


Lemma percentile_cross_extent_minimal_witness :
  (1 <= 3 <= Z.of_nat (List.length offset_pairs))%Z
  /\ (exists sorted,
        Permutation sorted (pair_maxima north_corridor offset_pairs)
        /\ StronglySorted ascending sorted
        /\ nth_error sorted (Z.to_nat 3 - 1)
           = Some (cross_extent north_corridor))
  /\ (forall h, leb (cross_extent north_corridor) h = false ->
        (count_within_cross h (projected_pairs north_corridor offset_pairs)
         < Z.to_nat 3)%nat).
Proof.
  apply (percentile_cross_extent_minimal north_path offset_pairs 3
           north_corridor).
  vm_compute. reflexivity.
Defined.

Lemma insufficient_pairs_raises_witness :
  compute_oriented_corridor north_path far_pairs 5 Percentile
  = Raise InsufficientPairsError
  /\ compute_oriented_corridor degenerate_path [] 1 Iterative
     = Raise InsufficientPairsError.
Proof.
  split.
  - apply (insufficient_pairs_raises north_path far_pairs 5 Percentile).
    cbn. lia.
  - apply (insufficient_pairs_raises degenerate_path [] 1 Iterative).
    cbn. lia.
Defined.
